(** * Zerro-levelup: the reactive data-access layer and its view controller

    A shallow embedding of [src/services/data.service.ts] (class
    [DataService]) and of the derived view model [filteredPosts] of
    [src/app.component.ts], with the properties the specification states
    about them.

    Conventions of the embedding.
    - A JavaScript string is a [string]; each [ascii] stands for the UTF-16
      code unit of the same number, so the strings covered are those over
      U+0000..U+00FF.  [JS.toLowerCase] and the class [\s] are exact on that
      range.
    - A TypeScript interface is a record, an optional field an [option], a
      union of string literals an inductive type.
    - The hosted backend is a value of type [Firebase.World]: the three
      subtrees of the database as finite maps, the session of the
      authentication provider, and the decisions that are outside the
      program (generated keys, the clock, acceptance of a request).
    - An [async] method is a function from the service state and the world
      to a settled promise ([Fulfilled] or [Rejected]) with the new state
      and world. *)

From Stdlib Require Import ZArith NArith String Ascii List Bool Lia.
From Stdlib Require Import Sorting.Sorted Sorting.Permutation.
From stdpp Require Import base option gmap strings pretty.

Import ListNotations.
Local Open Scope string_scope.

(** ** Built-ins of the JavaScript runtime used by the sources *)

Module JS.

(** [String.prototype.toLowerCase] on one code unit of U+0000..U+00FF:
    A-Z, and the Latin-1 capitals U+00C0..U+00DE except the
    multiplication sign U+00D7, move up by 32. *)
Definition lower_unit (c : ascii) : ascii :=
  let n := N_of_ascii c in
  if ((65 <=? n) && (n <=? 90)
      || (192 <=? n) && (n <=? 214)
      || (216 <=? n) && (n <=? 222))%N
  then ascii_of_N (n + 32) else c.

Fixpoint toLowerCase (s : string) : string :=
  match s with
  | EmptyString => EmptyString
  | String c s' => String (lower_unit c) (toLowerCase s')
  end.

(** [s.startsWith(q)] *)
Fixpoint startsWith (s q : string) : bool :=
  match q, s with
  | EmptyString, _ => true
  | String _ _, EmptyString => false
  | String b q', String a s' => Ascii.eqb a b && startsWith s' q'
  end.

(** [s.includes(q)]: [q] occurs in [s] at some position. *)
Fixpoint includes (s q : string) : bool :=
  startsWith s q
  || match s with
     | EmptyString => false
     | String _ s' => includes s' q
     end.

(** The class [\s] of a regular expression, on U+0000..U+00FF: tab, line
    feed, vertical tab, form feed, carriage return, space and the
    no-break space U+00A0. *)
Definition is_space (c : ascii) : bool :=
  let n := N_of_ascii c in
  ((9 <=? n) && (n <=? 13) || (n =? 32) || (n =? 160))%N.

(** [s.replace(/\s+/g, '-')].  The scan goes left to right; [\s+] is
    greedy, so a match is a maximal run of white space and is replaced as
    a whole.  [in_run] tells that the previous unit belongs to the match
    being replaced. *)
Fixpoint replace_runs (in_run : bool) (s : string) : string :=
  match s with
  | EmptyString => EmptyString
  | String c s' =>
      if is_space c
      then if in_run then replace_runs true s'
           else String "-" (replace_runs true s')
      else String c (replace_runs false s')
  end.

Definition replace_whitespace (s : string) : string := replace_runs false s.

(** A JavaScript number that is an integer or [NaN].  Time values are
    integers of at most 8.64e15 in size; of their difference the sort reads
    the sign only, which rounding keeps. *)
Definition number := option Z.

(** [x - y] *)
Definition sub (x y : number) : number :=
  match x, y with
  | Some a, Some b => Some (a - b)%Z
  | _, _ => None
  end.


(** [Array.prototype.sort(comparefn)].  ECMAScript's SortCompare reads a
    [NaN] returned by [comparefn] as [+0]. *)
Definition sortCompare {A} (comparefn : A -> A -> number) (a b : A) : Z :=
  match comparefn a b with
  | Some v => v
  | None => 0%Z
  end.

(** For a consistent comparator ECMAScript fixes the result: the sorted
    order, stable since ECMAScript 2019.  That result is what the stable
    insertion sort below computes: an element goes in front of the first
    element it does not have to follow.  For a comparator that is not
    consistent (here: one that returns [NaN] for some pair) ECMAScript
    leaves the order to the engine, and [sort] is no model of it; the
    properties of the order below are stated for consistent comparators
    only. *)
Fixpoint insert {A} (comparefn : A -> A -> number) (x : A) (l : list A) : list A :=
  match l with
  | [] => [x]
  | y :: l' =>
      if (sortCompare comparefn x y <=? 0)%Z then x :: y :: l'
      else y :: insert comparefn x l'
  end.

Fixpoint sort {A} (comparefn : A -> A -> number) (l : list A) : list A :=
  match l with
  | [] => []
  | x :: l' => insert comparefn x (sort comparefn l')
  end.

(** [a || b] on strings that may be [null]: the empty string is falsy. *)
Definition or_else (a : option string) (b : string) : string :=
  match a with
  | Some s => if String.eqb s "" then b else s
  | None => b
  end.

End JS.

(** ** Data model: the exported interfaces *)

(** [role: 'admin' | 'publisher' | 'user'] *)
Module Role.
Inductive t := admin | publisher | user.

(** [a === b] on roles *)
Definition eqb (a b : t) : bool :=
  match a, b with
  | admin, admin | publisher, publisher | user, user => true
  | _, _ => false
  end.
End Role.

Module User.
Record t := mk {
  id : string;
  email : string;
  name : string;
  role : Role.t;
  canEdit : option bool   (* [canEdit?: boolean] *)
}.
End User.

Module Category.
Record t := mk {
  id : string;
  name : string;
  icon : string;
  slug : string
}.
End Category.

Module Post.
Record t := mk {
  id : string;
  title : string;
  description : string;
  url : string;
  imageUrl : string;
  categoryId : string;
  publisherId : string;
  publisherName : string;
  date : string;
  views : Z
}.

(** [{ ...p, id: key }] *)
Definition with_id (key : string) (p : t) : t :=
  mk key (title p) (description p) (url p) (imageUrl p) (categoryId p)
     (publisherId p) (publisherName p) (date p) (views p).
End Post.

(** [Omit<User, 'id'>]: the profile document stored under [users/{uid}]. *)
Module Profile.
Record t := mk {
  name : string;
  email : string;
  role : Role.t;
  canEdit : option bool
}.
End Profile.

(** The record [addCategory] writes under [categories/{key}]. *)
Module CategoryData.
Record t := mk {
  name : string;
  icon : string;
  slug : string
}.
End CategoryData.

(** [Omit<Post, 'id' | 'views' | 'date' | 'publisherId' | 'publisherName'>] *)
Module PostFields.
Record t := mk {
  title : string;
  description : string;
  url : string;
  imageUrl : string;
  categoryId : string
}.
End PostFields.

(** [Partial<Post>]: every field optional.  It is also the shape of a node
    under [posts/{id}], since a partial update of a missing node creates
    it. *)
Module PartialPost.
Record t := mk {
  id : option string;
  title : option string;
  description : option string;
  url : option string;
  imageUrl : option string;
  categoryId : option string;
  publisherId : option string;
  publisherName : option string;
  date : option string;
  views : option Z
}.

Definition empty : t :=
  mk None None None None None None None None None None.

Definition over {A} (patch old : option A) : option A :=
  match patch with
  | Some v => Some v
  | None => old
  end.

(** The fields named by [patch] replace those of [node]; the others are
    untouched. *)
Definition merge (patch node : t) : t :=
  mk (over (id patch) (id node))
     (over (title patch) (title node))
     (over (description patch) (description node))
     (over (url patch) (url node))
     (over (imageUrl patch) (imageUrl node))
     (over (categoryId patch) (categoryId node))
     (over (publisherId patch) (publisherId node))
     (over (publisherName patch) (publisherName node))
     (over (date patch) (date node))
     (over (views patch) (views node)).

(** [{ ...postData, views, date, publisherId, publisherName }] *)
Definition stamped (postData : PostFields.t) (views : Z)
    (date publisherId publisherName : string) : t :=
  mk None
     (Some (PostFields.title postData))
     (Some (PostFields.description postData))
     (Some (PostFields.url postData))
     (Some (PostFields.imageUrl postData))
     (Some (PostFields.categoryId postData))
     (Some publisherId) (Some publisherName) (Some date) (Some views).
End PartialPost.

(** ** Settled promises *)

Inductive Error :=
| PermissionDenied (message : string)
    (* [throw new Error(message)] of a failed can-edit guard *)
| FirebaseError (code : string).
    (* a rejection coming from the backend *)

Inductive Promise (A : Type) :=
| Fulfilled (a : A)
| Rejected (e : Error).
Arguments Fulfilled {A} a.
Arguments Rejected {A} e.

Definition is_permission_denied {A} (p : Promise A) : bool :=
  match p with
  | Rejected (PermissionDenied _) => true
  | _ => false
  end.

(** ** The hosted backend *)

Module Firebase.

(** A mutation of the database tree, as the service requests it. *)
Inductive Write :=
| SetCategory (key : string) (c : CategoryData.t)   (* set(categories/key, c) *)
| SetPost (key : string) (p : PartialPost.t)        (* set(posts/key, p) *)
| UpdatePost (id : string) (p : PartialPost.t)      (* update(posts/id, p) *)
| RemovePost (id : string)                          (* remove(posts/id) *)
| SetUser (uid : string) (u : Profile.t).           (* set(users/uid, u) *)

Record World := mk {
  categories : gmap string CategoryData.t;
  posts : gmap string PartialPost.t;
  users : gmap string Profile.t;
  (* uid of the session of the authentication provider *)
  session : option string;
  (* keys handed out by [push]: the next one is [newKey pushed] *)
  pushed : nat;
  newKey : nat -> string;
  (* [new Date().toISOString()] *)
  now : string;
  (* the backend's verdict on a write for a session: [None] accepts,
     [Some code] rejects *)
  rules : option string -> Write -> option string;
  (* [createUserWithEmailAndPassword]: the uid issued, or an error code *)
  issue : string -> string -> string + string;
  (* [signOut]: [Some code] when it fails *)
  signOutError : option string
}.

Definition with_tree (c : gmap string CategoryData.t)
    (p : gmap string PartialPost.t) (u : gmap string Profile.t)
    (w : World) : World :=
  mk c p u (session w) (pushed w) (newKey w) (now w) (rules w) (issue w)
     (signOutError w).

Definition with_session (o : option string) (w : World) : World :=
  mk (categories w) (posts w) (users w) o (pushed w) (newKey w) (now w)
     (rules w) (issue w) (signOutError w).

Definition with_pushed (n : nat) (w : World) : World :=
  mk (categories w) (posts w) (users w) (session w) n (newKey w) (now w)
     (rules w) (issue w) (signOutError w).

(** The tree after an accepted write. *)
Definition apply (wr : Write) (w : World) : World :=
  match wr with
  | SetCategory key c =>
      with_tree (<[key := c]> (categories w)) (posts w) (users w) w
  | SetPost key p =>
      with_tree (categories w) (<[key := p]> (posts w)) (users w) w
  | UpdatePost id p =>
      with_tree (categories w)
        (<[id := PartialPost.merge p (default PartialPost.empty (posts w !! id))]>
           (posts w))
        (users w) w
  | RemovePost id =>
      with_tree (categories w) (delete id (posts w)) (users w) w
  | SetUser uid u =>
      with_tree (categories w) (posts w) (<[uid := u]> (users w)) w
  end.

(** [set], [update] and [remove]: the promise of a write. *)
Definition commit (wr : Write) (w : World) : Promise unit * World :=
  match rules w (session w) wr with
  | None => (Fulfilled tt, apply wr w)
  | Some code => (Rejected (FirebaseError code), w)
  end.

(** [push(ref(db, collection)).key]: a key is generated on the client;
    nothing is written. *)
Definition push (w : World) : string * World :=
  (newKey w (pushed w), with_pushed (S (pushed w)) w).

(** [createUserWithEmailAndPassword(auth, email, pass)]: on success the
    new credential is signed in; the result is [credential.user.uid]. *)
Definition createUserWithEmailAndPassword (email pass : string) (w : World)
    : Promise string * World :=
  match issue w email pass with
  | inl uid => (Fulfilled uid, with_session (Some uid) w)
  | inr code => (Rejected (FirebaseError code), w)
  end.

(** [signOut(auth)] *)
Definition signOut (w : World) : Promise unit * World :=
  match signOutError w with
  | None => (Fulfilled tt, with_session None w)
  | Some code => (Rejected (FirebaseError code), w)
  end.

(** [firebaseUser] as the session callback receives it. *)
Record FirebaseUser := mkUser {
  uid : string;
  email : option string;
  displayName : option string
}.

End Firebase.

(** ** The data-access layer: [class DataService] *)

Module DataService.

(** The signals. *)
Record t := mk {
  categories : list Category.t;
  posts : list Post.t;
  currentUser : option User.t;
  allUsers : list User.t
}.

Definition set_posts (l : list Post.t) (s : t) : t :=
  mk (categories s) l (currentUser s) (allUsers s).

Definition set_currentUser (o : option User.t) (s : t) : t :=
  mk (categories s) (posts s) o (allUsers s).

(** *** Computed signals *)

(** [this.currentUser()?.role === 'admin'] *)
Definition isAdmin (s : t) : bool :=
  match currentUser s with
  | Some u => Role.eqb (User.role u) Role.admin
  | None => false
  end.

Definition isPublisher (s : t) : bool :=
  match currentUser s with
  | Some u => Role.eqb (User.role u) Role.publisher || Role.eqb (User.role u) Role.admin
  | None => false
  end.

Definition canEdit (s : t) : bool :=
  match currentUser s with
  | None => false
  | Some user =>
      if Role.eqb (User.role user) Role.admin then true
      else
        (* [user.canEdit !== false] *)
        match User.canEdit user with
        | Some false => false
        | _ => true
        end
  end.

(** *** Snapshot handlers of [initData] and [initAuth] *)

Section Snapshots.

(** [new Date(s).getTime()]: the time value of a date string, [None]
    for [NaN] when the string is not a date. *)
Variable getTime : string -> JS.number.

(** [(a, b) => new Date(b.date).getTime() - new Date(a.date).getTime()] *)
Definition byDateDesc (a b : Post.t) : JS.number :=
  JS.sub (getTime (Post.date b)) (getTime (Post.date a)).

(** The callback on [posts].  [data] is [snapshot.val()]: [null], or an
    object given by its entries in the order of [Object.keys]. *)
Definition onPostsValue (data : option (list (string * Post.t))) (s : t) : t :=
  match data with
  | Some entries =>
      let postsArray := map (fun e => Post.with_id (fst e) (snd e)) entries in
      set_posts (JS.sort byDateDesc postsArray) s
  | None => set_posts [] s
  end.

End Snapshots.

(** The callback on [users/{uid}] of a signed-in session. *)
Definition onProfileValue (firebaseUser : Firebase.FirebaseUser)
    (userData : option User.t) (s : t) : t :=
  match userData with
  | Some d =>
      set_currentUser
        (Some (User.mk (Firebase.uid firebaseUser) (User.email d) (User.name d)
                 (User.role d) (User.canEdit d))) s
  | None =>
      let fallbackUser :=
        User.mk (Firebase.uid firebaseUser)
          (JS.or_else (Firebase.email firebaseUser) "")
          (JS.or_else (Firebase.displayName firebaseUser) "User")
          Role.user (Some true) in
      set_currentUser (Some fallbackUser) s
  end.

(** *** Asynchronous methods *)

Definition Async (A : Type) : Type :=
  t -> Firebase.World -> Promise A * t * Firebase.World.

Definition ret {A} (a : A) : Async A := fun s w => (Fulfilled a, s, w).

Definition throw {A} (e : Error) : Async A := fun s w => (Rejected e, s, w).

Definition bind {A B} (m : Async A) (k : A -> Async B) : Async B :=
  fun s w =>
    match m s w with
    | (Fulfilled a, s', w') => k a s' w'
    | (Rejected e, s', w') => (Rejected e, s', w')
    end.

(** [await] of a backend promise. *)
Definition await {A} (call : Firebase.World -> Promise A * Firebase.World)
    : Async A :=
  fun s w => let (p, w') := call w in (p, s, w').

(** A synchronous call into the backend client. *)
Definition sync {A} (call : Firebase.World -> A * Firebase.World) : Async A :=
  fun s w => let (a, w') := call w in (Fulfilled a, s, w').

(** Reading and writing the signals. *)
Definition signals : Async t := fun s w => (Fulfilled s, s, w).

Definition update_signals (f : t -> t) : Async unit :=
  fun s w => (Fulfilled tt, f s, w).

Notation "x <- m ;; k" := (bind m (fun x => k))
  (at level 100, m at next level, right associativity).

Definition addCategory (name icon : string) : Async string :=
  key <- sync Firebase.push ;;
  _ <- await (Firebase.commit
                (Firebase.SetCategory key
                   (CategoryData.mk name icon
                      (JS.replace_whitespace (JS.toLowerCase name))))) ;;
  ret key.

Definition addPost (postData : PostFields.t) : Async unit :=
  s <- signals ;;
  match currentUser s with
  | None => ret tt
  | Some user =>
      if negb (canEdit s)
      then throw (PermissionDenied "You do not have permission to post.")
      else
        key <- sync Firebase.push ;;
        date <- sync (fun w => (Firebase.now w, w)) ;;
        let newPost :=
          PartialPost.stamped postData 0 date (User.id user) (User.name user) in
        await (Firebase.commit (Firebase.SetPost key newPost))
  end.

Definition updatePost (id : string) (postData : PartialPost.t) : Async unit :=
  s <- signals ;;
  match currentUser s with
  | None => ret tt
  | Some user =>
      if negb (canEdit s)
      then throw (PermissionDenied "Permission denied: You cannot edit posts.")
      else await (Firebase.commit (Firebase.UpdatePost id postData))
  end.

Definition deletePost (id : string) : Async unit :=
  await (Firebase.commit (Firebase.RemovePost id)).

Definition logout : Async unit :=
  _ <- await Firebase.signOut ;;
  update_signals (set_currentUser None).

(** [role: 'publisher' | 'user'], the role a registration may ask for. *)
Inductive RequestedRole := as_publisher | as_user.

Definition role_of (r : RequestedRole) : Role.t :=
  match r with
  | as_publisher => Role.publisher
  | as_user => Role.user
  end.

(** The [catch] of [register] logs and rethrows, so a rejection passes
    through unchanged. *)
Definition register (name email pass : string) (role : RequestedRole)
    : Async bool :=
  uid <- await (Firebase.createUserWithEmailAndPassword email pass) ;;
  let finalRole :=
    if String.eqb email "moinulbd.sk@gmail.com" then Role.admin else role_of role in
  let newUser := Profile.mk name email finalRole (Some true) in
  _ <- await (Firebase.commit (Firebase.SetUser uid newUser)) ;;
  ret true.

End DataService.

(** ** The view controller: [class AppComponent] *)

Module AppComponent.

Record t := mk {
  dataService : DataService.t;
  searchQuery : string;
  selectedCategory : string
}.

Definition filteredPosts (c : t) : list Post.t :=
  let query := JS.toLowerCase (searchQuery c) in
  let cat := selectedCategory c in
  let posts := DataService.posts (dataService c) in
  List.filter
    (fun post =>
       let matchesSearch :=
         JS.includes (JS.toLowerCase (Post.title post)) query
         || JS.includes (JS.toLowerCase (Post.publisherName post)) query in
       let matchesCat := String.eqb cat "all" || String.eqb (Post.categoryId post) cat in
       matchesSearch && matchesCat)
    posts.

End AppComponent.

(** ** Projections of a settled call *)

Definition outcome {A} (r : Promise A * DataService.t * Firebase.World) : Promise A :=
  fst (fst r).

Definition state_of {A} (r : Promise A * DataService.t * Firebase.World) : DataService.t :=
  snd (fst r).

Definition world_of {A} (r : Promise A * DataService.t * Firebase.World) : Firebase.World :=
  snd r.

Definition signed_in (s : DataService.t) : bool :=
  match DataService.currentUser s with
  | Some _ => true
  | None => false
  end.

(** ** The wording of the specification, to compare the code with *)

Module Spec.

(** "lowercase name, spaces→hyphens", read unit by unit: every space
    becomes a hyphen. *)
Fixpoint spaces_to_hyphens (s : string) : string :=
  match s with
  | EmptyString => EmptyString
  | String c s' =>
      String (if Ascii.eqb c " " then "-"%char else c) (spaces_to_hyphens s')
  end.

Definition slug_in_words (name : string) : string :=
  spaces_to_hyphens (JS.toLowerCase name).

(** Runs of white space first shrink to their first unit, then every
    white-space unit left becomes one hyphen. *)
Fixpoint squeeze (after_space : bool) (s : string) : string :=
  match s with
  | EmptyString => EmptyString
  | String c s' =>
      if JS.is_space c && after_space then squeeze true s'
      else String c (squeeze (JS.is_space c) s')
  end.

Fixpoint hyphenate (s : string) : string :=
  match s with
  | EmptyString => EmptyString
  | String c s' =>
      String (if JS.is_space c then "-"%char else c) (hyphenate s')
  end.

Definition slug_of_runs (name : string) : string :=
  hyphenate (squeeze false (JS.toLowerCase name)).

(** The names on which the two readings of the slug agree: all white space
    is single spaces, none next to another. *)
Fixpoint isolated_spaces (after_space : bool) (s : string) : bool :=
  match s with
  | EmptyString => true
  | String c s' =>
      if JS.is_space c
      then Ascii.eqb c " " && negb after_space && isolated_spaces true s'
      else isolated_spaces false s'
  end.




(** The listings a snapshot of [posts] holds, each under its key. *)
Definition listings_of (data : option (list (string * Post.t))) : list Post.t :=
  match data with
  | Some entries => map (fun e => Post.with_id (fst e) (snd e)) entries
  | None => []
  end.


(** Newest first in the strong sense, for posts whose dates all parse. *)
Definition at_least_as_new (getTime : string -> JS.number) (a b : Post.t) : Prop :=
  exists ta tb,
    getTime (Post.date a) = Some ta /\ getTime (Post.date b) = Some tb
    /\ (tb <= ta)%Z.

End Spec.

(** ** Concrete states and worlds *)

Module Sample.

(** A backend that accepts every request. *)
Definition open_world : Firebase.World :=
  Firebase.mk ∅ ∅ ∅ None 0
    (fun n => "-K" +:+ pretty n)
    "2024-05-01T10:00:00.000Z"
    (fun _ _ => None)
    (fun email _ => inl ("uid:" +:+ email))
    None.

(** The same backend holding one listing under [posts/p1]. *)
Definition stocked_world : Firebase.World :=
  Firebase.with_tree ∅
    {[ "p1" := PartialPost.mk None (Some "WhatsApp Web") None
                 (Some "https://web.whatsapp.com") None (Some "c1") (Some "u2")
                 (Some "Pub") (Some "2024-05-01T10:00:00.000Z") (Some 0%Z) ]}
    ∅ open_world.

Definition signed_out : DataService.t := DataService.mk [] [] None [].

Definition as_user (u : User.t) : DataService.t :=
  DataService.mk [] [] (Some u) [].

Definition reader : User.t :=
  User.mk "u1" "reader@example.com" "Reader" Role.user None.

Definition root : User.t :=
  User.mk "u0" "moinulbd.sk@gmail.com" "Demo Admin" Role.admin (Some false).

Definition muted_publisher : User.t :=
  User.mk "u2" "pub@example.com" "Pub" Role.publisher (Some false).

Definition form : PostFields.t :=
  PostFields.mk "WhatsApp Web" "Messages from your computer."
    "https://web.whatsapp.com" "https://example.com/w.svg" "c1".

Definition whatsapp : Post.t :=
  Post.mk "p1" "WhatsApp Web" "Messages from your computer."
    "https://web.whatsapp.com" "https://example.com/w.svg" "c1" "u2" "Pub"
    "2024-05-01T10:00:00.000Z" 0.

Definition telegram : Post.t :=
  Post.mk "" "Telegram Web" "Fast. Secure. Powerful."
    "https://web.telegram.org" "https://example.com/t.svg" "c1" "u2" "Pub"
    "2024-05-02T10:00:00.000Z" 0.

Definition facebook : Post.t :=
  Post.mk "" "Facebook Official" "Connect with friends."
    "https://facebook.com" "https://example.com/f.svg" "c0" "u0" "Demo Admin"
    "2024-04-30T10:00:00.000Z" 0.


(** The time values of the three dates above, in milliseconds. *)
Definition getTime (s : string) : JS.number :=
  if String.eqb s "2024-05-01T10:00:00.000Z" then Some 1714557600000%Z
  else if String.eqb s "2024-05-02T10:00:00.000Z" then Some 1714644000000%Z
  else if String.eqb s "2024-04-30T10:00:00.000Z" then Some 1714471200000%Z
  else None.

End Sample.

(** ** The rest of [class DataService] *)

Module DataServiceRest.

Definition set_categories (l : list Category.t) (s : DataService.t) : DataService.t :=
  DataService.mk l (DataService.posts s) (DataService.currentUser s)
    (DataService.allUsers s).

Definition set_allUsers (l : list User.t) (s : DataService.t) : DataService.t :=
  DataService.mk (DataService.categories s) (DataService.posts s)
    (DataService.currentUser s) l.

(** [{ ...c, id: key }] *)
Definition category_with_id (key : string) (c : Category.t) : Category.t :=
  Category.mk key (Category.name c) (Category.icon c) (Category.slug c).

(** [{ ...u, id: key }] *)
Definition user_with_id (key : string) (u : User.t) : User.t :=
  User.mk key (User.email u) (User.name u) (User.role u) (User.canEdit u).

(** The callback on [categories] of [initData].  [data] is
    [snapshot.val()]: [null], or an object given by its entries in the
    order of [Object.keys]. *)
Definition onCategoriesValue (data : option (list (string * Category.t)))
    (s : DataService.t) : DataService.t :=
  match data with
  | Some entries =>
      let catArray := map (fun e => category_with_id (fst e) (snd e)) entries in
      set_categories catArray s
  | None => set_categories [] s
  end.

(** The callback on [users] of [initData]. *)
Definition onUsersValue (data : option (list (string * User.t)))
    (s : DataService.t) : DataService.t :=
  match data with
  | Some entries =>
      let usersArray := map (fun e => user_with_id (fst e) (snd e)) entries in
      set_allUsers usersArray s
  | None => set_allUsers [] s
  end.

(** The callback of [onAuthStateChanged] in [initAuth].  With a session it
    only opens the subscription on [users/{uid}], whose callback is
    [DataService.onProfileValue]; without one it clears the identity. *)
Definition onAuthStateChanged (firebaseUser : option Firebase.FirebaseUser)
    (s : DataService.t) : DataService.t :=
  match firebaseUser with
  | Some _ => s
  | None => DataService.set_currentUser None s
  end.

Notation "x <- m ;; k" := (DataService.bind m (fun x => k))
  (at level 100, m at next level, right associativity).

(** [for (const d of l) { body }] with an [await] in the body. *)
Fixpoint for_each {A} (body : A -> DataService.Async unit) (l : list A)
    : DataService.Async unit :=
  match l with
  | [] => DataService.ret tt
  | d :: l' => _ <- body d ;; for_each body l'
  end.

(** The four listings of [seedDefaults]. *)
Definition defaults (socialCatId msgCatId : string) : list PostFields.t :=
  [ PostFields.mk "Facebook Official"
      "Connect with friends, family and other people you know."
      "https://facebook.com"
      "https://upload.wikimedia.org/wikipedia/commons/5/51/Facebook_f_logo_%282019%29.svg"
      socialCatId;
    PostFields.mk "WhatsApp Web"
      "Quickly send and receive WhatsApp messages right from your computer."
      "https://web.whatsapp.com"
      "https://upload.wikimedia.org/wikipedia/commons/6/6b/WhatsApp.svg"
      msgCatId;
    PostFields.mk "Telegram Web"
      "A new era of messaging. Fast. Secure. Powerful."
      "https://web.telegram.org"
      "https://upload.wikimedia.org/wikipedia/commons/8/82/Telegram_logo.svg"
      msgCatId;
    PostFields.mk "YouTube"
      "Enjoy the videos and music you love, upload original content, and share it all with friends."
      "https://youtube.com"
      "https://upload.wikimedia.org/wikipedia/commons/0/09/YouTube_full-color_icon_%282017%29.svg"
      socialCatId ].

Section Seed.

(** The two icon literals of [seedDefaults]; they hold code units above
    U+00FF and are only passed on. *)
Variables (socialIcon msgIcon : string).

(** The body of the loop: a direct [push] and [set], no can-edit check. *)
Definition seedPost (adminId adminName : string) (d : PostFields.t)
    : DataService.Async unit :=
  newRef <- DataService.sync Firebase.push ;;
  date <- DataService.sync (fun w => (Firebase.now w, w)) ;;
  DataService.await
    (Firebase.commit
       (Firebase.SetPost newRef (PartialPost.stamped d 0 date adminId adminName))).

Definition seedDefaults : DataService.Async unit :=
  socialCatId <- DataService.addCategory "Social Media" socialIcon ;;
  msgCatId <- DataService.addCategory "Messaging" msgIcon ;;
  s <- DataService.signals ;;
  let adminUser := DataService.currentUser s in
  let adminId :=
    match adminUser with Some u => User.id u | None => "system" end in
  let adminName :=
    match adminUser with Some u => User.name u | None => "System Admin" end in
  for_each (seedPost adminId adminName) (defaults socialCatId msgCatId).

End Seed.

End DataServiceRest.

(** ** The view controller with its whole state

    [class AppComponent] as it stands after [class DataService] in
    [data.service.ts]: the version with the edit state, [savePost] and
    [editPost].  [AppComponent.t] above is the part of this state that
    filtered-listings reads. *)

(** [type ViewState] *)
Module ViewState.
Inductive t := home | login | register | publisher_dashboard | admin_dashboard.
End ViewState.

(** What the page shows and holds outside the component. *)
Module Browser.

(** A message of [alert]: a text, or a text followed by the [message] of a
    caught error. *)
Inductive Alert :=
| Say (text : string)
| SayError (text : string) (err : Error).

(** A callback handed to [setTimeout]. *)
Inductive Task :=
| ScrollToTop.   (* [() => window.scrollTo(0, 0)] *)

Record t := mk {
  alerts : list Alert;          (* in the order shown *)
  scroll : Z * Z;               (* the position set by [window.scrollTo] *)
  overflow : string;            (* [document.body.style.overflow] *)
  timers : list (Z * Task)      (* pending callbacks with their delay *)
}.

Definition alert (a : Alert) (b : t) : t :=
  mk (alerts b ++ [a]) (scroll b) (overflow b) (timers b).

Definition scrollTo (x y : Z) (b : t) : t :=
  mk (alerts b) (x, y) (overflow b) (timers b).

Definition set_overflow (v : string) (b : t) : t :=
  mk (alerts b) (scroll b) v (timers b).

Definition setTimeout (task : Task) (ms : Z) (b : t) : t :=
  mk (alerts b) (scroll b) (overflow b) (timers b ++ [(ms, task)]).

End Browser.

Module Controller.

Record LoginForm := mkLogin { login_email : string; login_password : string }.

Record RegisterForm := mkRegister {
  register_name : string;
  register_email : string;
  register_password : string;
  register_role : DataService.RequestedRole
}.

Record CategoryForm := mkCategory { category_name : string; category_icon : string }.

Record t := mk {
  dataService : DataService.t;
  currentView : ViewState.t;
  searchQuery : string;
  selectedCategory : string;
  selectedPost : option Post.t;
  editingPostId : option string;
  loginForm : LoginForm;
  registerForm : RegisterForm;
  postForm : PostFields.t;
  categoryForm : CategoryForm
}.

(** The part of the state that [AppComponent.filteredPosts] reads. *)
Definition component (c : t) : AppComponent.t :=
  AppComponent.mk (dataService c) (searchQuery c) (selectedCategory c).

Definition set_dataService (s : DataService.t) (c : t) : t :=
  mk s (currentView c) (searchQuery c) (selectedCategory c) (selectedPost c)
     (editingPostId c) (loginForm c) (registerForm c) (postForm c)
     (categoryForm c).

Definition set_currentView (v : ViewState.t) (c : t) : t :=
  mk (dataService c) v (searchQuery c) (selectedCategory c) (selectedPost c)
     (editingPostId c) (loginForm c) (registerForm c) (postForm c)
     (categoryForm c).

Definition set_selectedPost (o : option Post.t) (c : t) : t :=
  mk (dataService c) (currentView c) (searchQuery c) (selectedCategory c) o
     (editingPostId c) (loginForm c) (registerForm c) (postForm c)
     (categoryForm c).

Definition set_editingPostId (o : option string) (c : t) : t :=
  mk (dataService c) (currentView c) (searchQuery c) (selectedCategory c)
     (selectedPost c) o (loginForm c) (registerForm c) (postForm c)
     (categoryForm c).

Definition set_postForm (f : PostFields.t) (c : t) : t :=
  mk (dataService c) (currentView c) (searchQuery c) (selectedCategory c)
     (selectedPost c) (editingPostId c) (loginForm c) (registerForm c) f
     (categoryForm c).

Definition set_categoryForm (f : CategoryForm) (c : t) : t :=
  mk (dataService c) (currentView c) (searchQuery c) (selectedCategory c)
     (selectedPost c) (editingPostId c) (loginForm c) (registerForm c)
     (postForm c) f.

(** [!s] on a string: only the empty string is falsy. *)
Definition blank (s : string) : bool := String.eqb s "".

(** *** Derived data *)

Definition myPosts (c : t) : list Post.t :=
  match DataService.currentUser (dataService c) with
  | None => []
  | Some user =>
      List.filter (fun p => String.eqb (Post.publisherId p) (User.id user))
        (DataService.posts (dataService c))
  end.

Definition publishersList (c : t) : list User.t :=
  List.filter (fun u => Role.eqb (User.role u) Role.publisher)
    (DataService.allUsers (dataService c)).

Definition getCategoryName (id : string) (c : t) : string :=
  match List.find (fun cat => String.eqb (Category.id cat) id)
          (DataService.categories (dataService c)) with
  | Some cat => Category.name cat
  | None => "Unknown"
  end.

(** *** Navigation *)

Definition resetPostForm (c : t) : t :=
  set_postForm (PostFields.mk "" "" "" "" "") (set_editingPostId None c).

Definition setView (view : ViewState.t) (c : t) (b : Browser.t) : t * Browser.t :=
  let c := set_currentView view c in
  let c := set_selectedPost None c in
  let c := resetPostForm c in
  (c, Browser.scrollTo 0 0 b).

Definition openPost (post : Post.t) (c : t) (b : Browser.t) : t * Browser.t :=
  (set_selectedPost (Some post) c, Browser.set_overflow "hidden" b).

Definition closePost (c : t) (b : Browser.t) : t * Browser.t :=
  (set_selectedPost None c, Browser.set_overflow "" b).

(** [await this.dataService.logout(); this.setView('home')] *)
Definition logout (c : t) (b : Browser.t) (w : Firebase.World)
    : Promise unit * t * Browser.t * Firebase.World :=
  match DataService.logout (dataService c) w with
  | (Fulfilled _, s, w') =>
      let (c', b') := setView ViewState.home (set_dataService s c) b in
      (Fulfilled tt, c', b', w')
  | (Rejected e, s, w') => (Rejected e, set_dataService s c, b, w')
  end.

(** *** Actions *)

(** The five fields of the form as a [Partial<Post>]. *)
Definition as_partial (postData : PostFields.t) : PartialPost.t :=
  PartialPost.mk None
    (Some (PostFields.title postData))
    (Some (PostFields.description postData))
    (Some (PostFields.url postData))
    (Some (PostFields.imageUrl postData))
    (Some (PostFields.categoryId postData))
    None None None None.

(** [savePost].  [random] is the text of [Math.random()] in the address of
    the placeholder image. *)
Definition savePost (random : string) (c : t) (b : Browser.t) (w : Firebase.World)
    : t * Browser.t * Firebase.World :=
  if negb (DataService.canEdit (dataService c))
  then (c,
        Browser.alert
          (Browser.Say
             "You have been restricted from editing or creating posts by the Admin.")
          b,
        w)
  else if blank (PostFields.title (postForm c))
          || blank (PostFields.url (postForm c))
          || blank (PostFields.categoryId (postForm c))
  then (c, Browser.alert (Browser.Say "Title, URL and Category are required") b, w)
  else
    let img :=
      if blank (PostFields.imageUrl (postForm c))
      then "https://picsum.photos/400/200?random=" +:+ random
      else PostFields.imageUrl (postForm c) in
    let postData :=
      PostFields.mk (PostFields.title (postForm c))
        (PostFields.description (postForm c)) (PostFields.url (postForm c)) img
        (PostFields.categoryId (postForm c)) in
    let editing :=
      match editingPostId c with
      | Some id => if blank id then None else Some id
      | None => None
      end in
    let '(p, s, w', done) :=
      match editing with
      | Some id =>
          (DataService.updatePost id (as_partial postData) (dataService c) w,
           "Post updated successfully!")
      | None =>
          (DataService.addPost postData (dataService c) w,
           "Post published successfully!")
      end in
    match p with
    | Fulfilled _ =>
        (resetPostForm (set_dataService s c),
         Browser.alert (Browser.Say done) b, w')
    | Rejected err =>
        (set_dataService s c,
         Browser.alert (Browser.SayError "Error saving post: " err) b, w')
    end.

Definition editPost (post : Post.t) (c : t) (b : Browser.t) : t * Browser.t :=
  if negb (DataService.canEdit (dataService c))
  then (c, Browser.alert (Browser.Say "You do not have permission to edit.") b)
  else
    let c := set_editingPostId (Some (Post.id post)) c in
    let c :=
      set_postForm
        (PostFields.mk (Post.title post) (Post.description post) (Post.url post)
           (Post.imageUrl post) (Post.categoryId post)) c in
    match DataService.currentUser (dataService c) with
    | Some user =>
        if Role.eqb (User.role user) Role.admin
        then
          let (c, b) := setView ViewState.admin_dashboard c b in
          (c, Browser.setTimeout Browser.ScrollToTop 100 b)
        else if Role.eqb (User.role user) Role.publisher
        then
          let (c, b) := setView ViewState.publisher_dashboard c b in
          (c, Browser.setTimeout Browser.ScrollToTop 100 b)
        else (c, b)
    | None => (c, b)
    end.

(** [createCategory]: the promise of [addCategory] is dropped, its
    settlement is taken at once. *)
Definition createCategory (c : t) (w : Firebase.World) : t * Firebase.World :=
  if blank (category_name (categoryForm c)) then (c, w)
  else
    let icon :=
      if blank (category_icon (categoryForm c)) then "#"
      else category_icon (categoryForm c) in
    let '(_, s, w') :=
      DataService.addCategory (category_name (categoryForm c)) icon
        (dataService c) w in
    (set_categoryForm (mkCategory "" "") (set_dataService s c), w').

End Controller.

(** ** Frames *)

(** The three subtrees of the database are the same in both worlds. *)
Definition same_tree (w w' : Firebase.World) : Prop :=
  Firebase.categories w' = Firebase.categories w
  /\ Firebase.posts w' = Firebase.posts w
  /\ Firebase.users w' = Firebase.users w.

(** A method that fails with PermissionDenied in no state and no world. *)
Definition never_denied {A} (m : DataService.Async A) : Prop :=
  forall s w, is_permission_denied (outcome (m s w)) = false.

(** The promise is rejected. *)
Definition is_rejected {A} (p : Promise A) : bool :=
  match p with
  | Rejected _ => true
  | Fulfilled _ => false
  end.

(** ** More concrete states *)

Module Scenario.

Definition publisher : User.t :=
  User.mk "u2" "pub@example.com" "Pub" Role.publisher None.

Definition blank_forms (s : DataService.t) : Controller.t :=
  Controller.mk s ViewState.home "" "all" None None
    (Controller.mkLogin "" "")
    (Controller.mkRegister "" "" "" DataService.as_user)
    (PostFields.mk "" "" "" "" "")
    (Controller.mkCategory "" "").

Definition quiet : Browser.t := Browser.mk [] (0, 120)%Z "" [].

(** The component of a role 'user' identity in the middle of an edit of
    [posts/p1], the image left blank. *)
Definition editing : Controller.t :=
  Controller.mk (Sample.as_user Sample.reader) ViewState.home "" "all" None
    (Some "p1")
    (Controller.mkLogin "" "")
    (Controller.mkRegister "" "" "" DataService.as_user)
    (PostFields.mk "WhatsApp" "Chat." "https://web.whatsapp.com" "" "c1")
    (Controller.mkCategory "" "").

(** A backend that accepts categories and refuses every listing. *)
Definition no_listings : Firebase.World :=
  Firebase.mk ∅ ∅ ∅ None 0
    (fun n => "-K" +:+ pretty n)
    "2024-05-01T10:00:00.000Z"
    (fun _ wr =>
       match wr with
       | Firebase.SetPost _ _ => Some "PERMISSION_DENIED"
       | _ => None
       end)
    (fun email _ => inl ("uid:" +:+ email))
    None.

(** [snapshot.val()] of [categories]; the second node stores an id of its
    own. *)
Definition categories : list (string * Category.t) :=
  [ ("c0", Category.mk "" "Social Media" "#" "social-media");
    ("c1", Category.mk "stale" "Messaging" "#" "messaging") ].

(** [snapshot.val()] of [users]. *)
Definition users : list (string * User.t) :=
  [ ("u0", Sample.root); ("u2", User.mk "" "pub@example.com" "Pub" Role.publisher None);
    ("u1", Sample.reader) ].

(** The three listings of [Sample.snapshot], newest first. *)
Definition newest_first : option (list (string * Post.t)) :=
  Some [("p2", Sample.telegram); ("p1", Sample.whatsapp); ("p3", Sample.facebook)].

(** A backend that issues credentials and refuses every write. *)
Definition read_only : Firebase.World :=
  Firebase.mk ∅ ∅ ∅ None 0
    (fun n => "-K" +:+ pretty n)
    "2024-05-01T10:00:00.000Z"
    (fun _ _ => Some "PERMISSION_DENIED")
    (fun email _ => inl ("uid:" +:+ email))
    None.

End Scenario.

(** * Properties *)

(** ** Strings *)

Section StringFacts.

Lemma append_empty s : "" +:+ s = s.
Proof. reflexivity. Qed.









End StringFacts.

(** ** Sorting *)

Section SortFacts.

Context {A : Type} (comparefn : A -> A -> JS.number).

Lemma insert_perm x l : Permutation (JS.insert comparefn x l) (x :: l).
Proof.
  induction l as [|y l IH]; simpl; [reflexivity|].
  destruct (JS.sortCompare comparefn x y <=? 0)%Z; [reflexivity|].
  rewrite IH. apply perm_swap.
Qed.

Lemma sort_perm l : Permutation (JS.sort comparefn l) l.
Proof.
  induction l as [|x l IH]; simpl; [reflexivity|].
  rewrite insert_perm. constructor. exact IH.
Qed.

(** [R a b]: [b] may directly follow [a].  The two hypotheses say that
    the comparator never puts an element where [R] forbids it. *)
Variable R : A -> A -> Prop.
Hypothesis before : forall x y, (JS.sortCompare comparefn x y <= 0)%Z -> R x y.
Hypothesis after : forall x y, (0 < JS.sortCompare comparefn x y)%Z -> R y x.




End SortFacts.

Section DateOrder.

Variable getTime : string -> JS.number.






End DateOrder.

(** ** White space in a slug *)

Lemma replace_runs_squeeze in_run s :
  JS.replace_runs in_run s = Spec.hyphenate (Spec.squeeze in_run s).
Proof.
  revert in_run; induction s as [|c s IH]; intros in_run; simpl; [reflexivity|].
  destruct (JS.is_space c) eqn:Hc, in_run; simpl; rewrite ?Hc, IH; reflexivity.
Qed.

Lemma squeeze_isolated after_space s :
  Spec.isolated_spaces after_space s = true ->
  Spec.hyphenate (Spec.squeeze after_space s) = Spec.spaces_to_hyphens s.
Proof.
  revert after_space; induction s as [|c s IH]; intros after_space; simpl;
    [reflexivity|].
  destruct (JS.is_space c) eqn:Hc.
  - rewrite !andb_true_iff, Ascii.eqb_eq, negb_true_iff.
    intros [[-> ->] Hs]. simpl. rewrite (IH _ Hs). reflexivity.
  - intros Hs. simpl. rewrite Hc, (IH _ Hs).
    destruct (Ascii.eqb_spec c " ") as [->|_]; [discriminate|reflexivity].
Qed.

(** On a name whose white space is isolated single spaces the slug is the
    lowercase name with a hyphen for every space. *)
Lemma slug_of_runs_in_words name :
  Spec.isolated_spaces false (JS.toLowerCase name) = true ->
  Spec.slug_of_runs name = Spec.slug_in_words name.
Proof. apply squeeze_isolated. Qed.

(** ** The backend *)

(** What a fulfilled write leaves behind. *)
Lemma commit_fulfilled wr w p w' :
  Firebase.commit wr w = (p, w') ->
  (exists u, p = Fulfilled u) ->
  w' = Firebase.apply wr w.
Proof.
  unfold Firebase.commit.
  destruct (Firebase.rules w (Firebase.session w) wr); intros [= <- <-] [u Hu];
    [discriminate | reflexivity].
Qed.

Ltac run :=
  unfold DataService.bind, DataService.await, DataService.sync, DataService.ret,
    DataService.throw, DataService.signals, DataService.update_signals.

(** ** The derived can-edit flag *)

(** C1, as the code has it: for a signed-in identity whose role is 'user'
    can-edit is the identity's editable-flag, true when the flag is unset;
    it is false only when the flag is explicitly false. *)
Theorem canEdit_role_user s u :
  DataService.currentUser s = Some u ->
  User.role u = Role.user ->
  DataService.canEdit s = default true (User.canEdit u).
Proof.
  intros Hs Hr. unfold DataService.canEdit. rewrite Hs, Hr. simpl.
  destruct (User.canEdit u) as [[|]|]; reflexivity.
Qed.

Lemma canEdit_role_user_witness :
  DataService.currentUser (Sample.as_user Sample.reader) = Some Sample.reader
  /\ User.role Sample.reader = Role.user
  /\ DataService.canEdit (Sample.as_user Sample.reader)
     = default true (User.canEdit Sample.reader).
Proof.
  split; [reflexivity|]. split; [reflexivity|].
  apply (canEdit_role_user (Sample.as_user Sample.reader) Sample.reader);
    reflexivity.
Defined.

(** C1 as stated fails: an identity with role 'user' and no editable-flag
    can edit. *)
Lemma canEdit_role_user_counterexample :
  User.role Sample.reader = Role.user
  /\ User.canEdit Sample.reader = None
  /\ DataService.canEdit (Sample.as_user Sample.reader) = true.
Proof. repeat split. Qed.

(** C3: can-edit is false when no identity is signed in, true for an admin
    whatever the editable-flag, and for a publisher it is the editable-flag,
    true when the flag is unset. *)
Theorem canEdit_derivation cats ps us id email name flag :
  DataService.canEdit (DataService.mk cats ps None us) = false
  /\ DataService.canEdit
       (DataService.mk cats ps (Some (User.mk id email name Role.admin flag)) us)
     = true
  /\ DataService.canEdit
       (DataService.mk cats ps (Some (User.mk id email name Role.publisher flag)) us)
     = default true flag.
Proof.
  repeat split. destruct flag as [[|]|]; reflexivity.
Qed.

(** ** Listings *)

(** C2, as the code has it: create-listing fails with PermissionDenied
    exactly when an identity is signed in and can-edit is false at call
    time. *)
Theorem addPost_permission_denied postData s w :
  is_permission_denied (outcome (DataService.addPost postData s w))
  = signed_in s && negb (DataService.canEdit s).
Proof.
  unfold DataService.addPost. run. unfold signed_in.
  destruct (DataService.currentUser s) as [user|] eqn:Hu; [|reflexivity].
  destruct (DataService.canEdit s); [|reflexivity]. simpl.
  unfold Firebase.push, Firebase.commit. simpl.
  match goal with |- context [Firebase.rules ?w ?o ?wr] =>
    destruct (Firebase.rules w o wr) end; reflexivity.
Qed.

(** C2 as stated fails: with no identity signed in can-edit is false, yet
    create-listing is fulfilled. *)
Lemma addPost_permission_denied_counterexample :
  DataService.canEdit Sample.signed_out = false
  /\ DataService.addPost Sample.form Sample.signed_out Sample.open_world
     = (Fulfilled tt, Sample.signed_out, Sample.open_world).
Proof. split; reflexivity. Qed.

(** C10: with no identity signed in, create-listing and update-listing are
    fulfilled without an error, and neither the signals nor the backend
    change. *)
Theorem no_identity_no_write postData id patch s w :
  DataService.currentUser s = None ->
  DataService.addPost postData s w = (Fulfilled tt, s, w)
  /\ DataService.updatePost id patch s w = (Fulfilled tt, s, w).
Proof.
  intros Hs. unfold DataService.addPost, DataService.updatePost. run.
  rewrite Hs. split; reflexivity.
Qed.

Lemma no_identity_no_write_witness :
  DataService.currentUser Sample.signed_out = None
  /\ DataService.addPost Sample.form Sample.signed_out Sample.open_world
     = (Fulfilled tt, Sample.signed_out, Sample.open_world)
  /\ DataService.updatePost "p1" PartialPost.empty Sample.signed_out
       Sample.open_world
     = (Fulfilled tt, Sample.signed_out, Sample.open_world).
Proof.
  split; [reflexivity|].
  apply (no_identity_no_write Sample.form "p1" PartialPost.empty
           Sample.signed_out Sample.open_world).
  reflexivity.
Defined.

(** C5: delete-listing never fails with PermissionDenied and never looks at
    the current identity: its result is the backend's answer to the removal,
    and when the backend accepts it the call is fulfilled and the listing is
    gone, whoever is or is not signed in. *)
Theorem deletePost_unconditional id s w :
  let r := DataService.deletePost id s w in
  is_permission_denied (outcome r) = false
  /\ state_of r = s
  /\ (forall o,
        DataService.deletePost id (DataService.set_currentUser o s) w
        = (outcome r, DataService.set_currentUser o s, world_of r))
  /\ match Firebase.rules w (Firebase.session w) (Firebase.RemovePost id) with
     | None =>
         outcome r = Fulfilled tt
         /\ Firebase.posts (world_of r) = delete id (Firebase.posts w)
     | Some code => outcome r = Rejected (FirebaseError code) /\ world_of r = w
     end.
Proof.
  unfold DataService.deletePost, DataService.await, Firebase.commit.
  destruct (Firebase.rules w (Firebase.session w) (Firebase.RemovePost id));
    simpl; repeat split.
Qed.

Lemma deletePost_unconditional_witness :
  DataService.canEdit (Sample.as_user Sample.muted_publisher) = false
  /\ Firebase.posts Sample.stocked_world !! "p1" <> None
  /\ outcome (DataService.deletePost "p1" (Sample.as_user Sample.muted_publisher)
                Sample.stocked_world) = Fulfilled tt
  /\ Firebase.posts
       (world_of (DataService.deletePost "p1"
                    (Sample.as_user Sample.muted_publisher) Sample.stocked_world))
     !! "p1" = None.
Proof.
  split; [reflexivity|]. split; [discriminate|].
  destruct (deletePost_unconditional "p1" (Sample.as_user Sample.muted_publisher)
              Sample.stocked_world) as (_ & _ & _ & Hdone & Hposts).
  split; [exact Hdone|]. rewrite Hposts. apply lookup_delete_eq.
Defined.

(** ** Sessions *)

(** C7: once sign-out is fulfilled the current identity is absent and
    is-admin, is-publisher and can-edit are all false; the method clears the
    identity itself, no session callback is involved. *)
Theorem logout_clears s w s' w' :
  DataService.logout s w = (Fulfilled tt, s', w') ->
  DataService.currentUser s' = None
  /\ DataService.isAdmin s' = false
  /\ DataService.isPublisher s' = false
  /\ DataService.canEdit s' = false.
Proof.
  unfold DataService.logout. run. unfold Firebase.signOut.
  destruct (Firebase.signOutError w); [discriminate|].
  intros [= <- <-]. repeat split.
Qed.

Lemma logout_clears_witness :
  DataService.logout (Sample.as_user Sample.root) Sample.open_world
  = (Fulfilled tt, Sample.signed_out, Sample.open_world)
  /\ DataService.canEdit (Sample.as_user Sample.root) = true
  /\ DataService.currentUser Sample.signed_out = None
  /\ DataService.isAdmin Sample.signed_out = false
  /\ DataService.isPublisher Sample.signed_out = false
  /\ DataService.canEdit Sample.signed_out = false.
Proof.
  split; [reflexivity|]. split; [reflexivity|].
  apply (logout_clears (Sample.as_user Sample.root) Sample.open_world
           Sample.signed_out Sample.open_world).
  reflexivity.
Defined.

(** C4: a fulfilled register has written, under the uid of the new
    credential, a profile whose role is 'admin' when the email is
    'moinulbd.sk@gmail.com', the requested role for any other email, and
    whose editable-flag is true. *)
Theorem register_profile name email pass role s w b s' w' :
  DataService.register name email pass role s w = (Fulfilled b, s', w') ->
  exists uid profile,
    Firebase.issue w email pass = inl uid
    /\ Firebase.users w' !! uid = Some profile
    /\ Profile.canEdit profile = Some true
    /\ (email = "moinulbd.sk@gmail.com" -> Profile.role profile = Role.admin)
    /\ (email <> "moinulbd.sk@gmail.com" ->
        Profile.role profile = DataService.role_of role).
Proof.
  unfold DataService.register. run.
  unfold Firebase.createUserWithEmailAndPassword.
  destruct (Firebase.issue w email pass) as [uid|code]; [|discriminate].
  destruct (Firebase.commit _ _) as [[u|e] w1] eqn:Hc; [|discriminate].
  intros [= <- <- <-].
  apply commit_fulfilled in Hc as ->; [|eauto].
  eexists uid, _. split; [reflexivity|]. split.
  - simpl. apply lookup_insert_eq.
  - simpl. split; [reflexivity|].
    destruct (String.eqb_spec email "moinulbd.sk@gmail.com"); split;
      intros; congruence.
Qed.

Lemma register_profile_witness :
  exists uid profile,
    Firebase.issue Sample.open_world "moinulbd.sk@gmail.com" "pw" = inl uid
    /\ Firebase.users
         (world_of (DataService.register "A" "moinulbd.sk@gmail.com" "pw"
                      DataService.as_user Sample.signed_out Sample.open_world))
       !! uid = Some profile
    /\ Profile.canEdit profile = Some true
    /\ ("moinulbd.sk@gmail.com" = "moinulbd.sk@gmail.com" ->
        Profile.role profile = Role.admin)
    /\ ("moinulbd.sk@gmail.com" <> "moinulbd.sk@gmail.com" ->
        Profile.role profile = DataService.role_of DataService.as_user).
Proof.
  apply (register_profile "A" "moinulbd.sk@gmail.com" "pw" DataService.as_user
           Sample.signed_out Sample.open_world true Sample.signed_out).
  reflexivity.
Defined.

(** ** Categories *)

(** C8, as the code has it: a fulfilled create-category returns the
    generated key and has written under it the name, the icon and the slug:
    the lowercase name in which every maximal run of white space is one
    hyphen.  For the name "Tech News" the slug is "tech-news". *)
Theorem addCategory_slug name icon s w key s' w' :
  DataService.addCategory name icon s w = (Fulfilled key, s', w') ->
  key = Firebase.newKey w (Firebase.pushed w)
  /\ Firebase.categories w' !! key
     = Some (CategoryData.mk name icon (Spec.slug_of_runs name))
  /\ (name = "Tech News" ->
      CategoryData.slug <$> Firebase.categories w' !! key = Some "tech-news").
Proof.
  unfold DataService.addCategory. run. unfold Firebase.push.
  destruct (Firebase.commit _ _) as [[u|e] w1] eqn:Hc; [|discriminate].
  intros [= <- <- <-].
  apply commit_fulfilled in Hc as ->; [|eauto]. simpl.
  unfold JS.replace_whitespace. rewrite replace_runs_squeeze.
  fold (Spec.slug_of_runs name).
  split; [reflexivity|]. split.
  - apply lookup_insert_eq.
  - intros ->. rewrite lookup_insert_eq. reflexivity.
Qed.

Lemma addCategory_slug_witness :
  DataService.addCategory "Tech News" "*" Sample.signed_out Sample.open_world
  = (Fulfilled "-K0", Sample.signed_out,
     world_of (DataService.addCategory "Tech News" "*" Sample.signed_out
                 Sample.open_world))
  /\ CategoryData.slug
     <$> Firebase.categories
           (world_of (DataService.addCategory "Tech News" "*" Sample.signed_out
                        Sample.open_world)) !! "-K0"
     = Some "tech-news".
Proof.
  assert (H : DataService.addCategory "Tech News" "*" Sample.signed_out
                Sample.open_world
              = (Fulfilled "-K0", Sample.signed_out,
                 world_of (DataService.addCategory "Tech News" "*"
                             Sample.signed_out Sample.open_world)))
    by reflexivity.
  split; [exact H|].
  apply (addCategory_slug _ _ _ _ _ _ _ H). reflexivity.
Defined.

(** C8 as stated fails: for a name with two spaces in a row the slug
    written has one hyphen, where a hyphen for every space gives two. *)
Lemma addCategory_slug_counterexample :
  CategoryData.slug
  <$> Firebase.categories
        (world_of (DataService.addCategory "Tech  News" "*" Sample.signed_out
                     Sample.open_world)) !! "-K0"
  = Some "tech-news"
  /\ Spec.slug_in_words "Tech  News" = "tech--news".
Proof. split; reflexivity. Qed.

(** ** The listings collection *)



(** ** The view controller *)


(** Search by author name, in capitals, within one category. *)
Example filteredPosts_by_author :
  AppComponent.filteredPosts
    (AppComponent.mk
       (DataService.mk [] [Sample.telegram; Sample.whatsapp; Sample.facebook]
          None [])
       "PUB" "c1")
  = [Sample.telegram; Sample.whatsapp].
Proof. reflexivity. Qed.

(** A muted publisher is refused, and nothing is written. *)
Example addPost_muted_publisher :
  DataService.addPost Sample.form (Sample.as_user Sample.muted_publisher)
    Sample.open_world
  = (Rejected (PermissionDenied "You do not have permission to post."),
     Sample.as_user Sample.muted_publisher, Sample.open_world).
Proof. reflexivity. Qed.

(** The identity synthesized for a session without a profile has role
    'user' and can edit. *)
Example fallback_user_can_edit :
  DataService.canEdit
    (DataService.onProfileValue
       (Firebase.mkUser "u9" (Some "new@example.com") None) None
       Sample.signed_out)
  = true.
Proof. reflexivity. Qed.

(** * Further properties of the data-access layer *)

(** A write changes one subtree at one key. *)
Lemma commit_rejected wr w e w' :
  Firebase.commit wr w = (Rejected e, w') ->
  w' = w /\ exists code, e = FirebaseError code.
Proof.
  unfold Firebase.commit.
  destruct (Firebase.rules w (Firebase.session w) wr) as [code|];
    intros [= <- <-]; eauto.
Qed.

Lemma commit_accepted wr w :
  Firebase.rules w (Firebase.session w) wr = None ->
  Firebase.commit wr w = (Fulfilled tt, Firebase.apply wr w).
Proof. unfold Firebase.commit. intros ->. reflexivity. Qed.

Lemma commit_refused wr w code :
  Firebase.rules w (Firebase.session w) wr = Some code ->
  Firebase.commit wr w = (Rejected (FirebaseError code), w).
Proof. unfold Firebase.commit. intros ->. reflexivity. Qed.

(** X1: update-listing fails with PermissionDenied exactly when an
    identity is signed in and can-edit is false at call time. *)
Theorem updatePost_permission_denied id patch s w :
  is_permission_denied (outcome (DataService.updatePost id patch s w))
  = signed_in s && negb (DataService.canEdit s).
Proof.
  unfold DataService.updatePost. run. unfold signed_in.
  destruct (DataService.currentUser s) as [user|]; [|reflexivity].
  destruct (DataService.canEdit s); [|reflexivity]. simpl.
  unfold Firebase.commit.
  destruct (Firebase.rules _ _ _); reflexivity.
Qed.

(** X2: a fulfilled create-listing of a signed-in identity has written,
    under the key generated for it, the fields of the form stamped with
    views 0, the current date and the id and name of that identity, without
    an id field; every other node of the tree is as before. *)
Theorem addPost_stamps postData s w user s' w' :
  DataService.currentUser s = Some user ->
  DataService.addPost postData s w = (Fulfilled tt, s', w') ->
  exists node,
    Firebase.posts w' !! Firebase.newKey w (Firebase.pushed w) = Some node
    /\ PartialPost.views node = Some 0%Z
    /\ PartialPost.date node = Some (Firebase.now w)
    /\ PartialPost.publisherId node = Some (User.id user)
    /\ PartialPost.publisherName node = Some (User.name user)
    /\ PartialPost.id node = None
    /\ PartialPost.title node = Some (PostFields.title postData)
    /\ PartialPost.description node = Some (PostFields.description postData)
    /\ PartialPost.url node = Some (PostFields.url postData)
    /\ PartialPost.imageUrl node = Some (PostFields.imageUrl postData)
    /\ PartialPost.categoryId node = Some (PostFields.categoryId postData)
    /\ (forall k, k <> Firebase.newKey w (Firebase.pushed w) ->
        Firebase.posts w' !! k = Firebase.posts w !! k)
    /\ Firebase.categories w' = Firebase.categories w
    /\ Firebase.users w' = Firebase.users w.
Proof.
  intros Hu. unfold DataService.addPost. run. rewrite Hu.
  destruct (DataService.canEdit s); simpl; [|discriminate].
  destruct (Firebase.commit _ _) as [[u|e] w1] eqn:Hc; [|discriminate].
  intros [= _ <- <-].
  apply commit_fulfilled in Hc as ->; [|eauto]. simpl.
  eexists. split; [apply lookup_insert_eq|].
  repeat (split; [reflexivity|]).
  split; [|split; reflexivity].
  intros k Hk. apply lookup_insert_ne. congruence.
Qed.

Lemma addPost_stamps_witness :
  exists node,
    Firebase.posts
      (world_of (DataService.addPost Sample.form
                   (Sample.as_user Scenario.publisher) Sample.stocked_world))
    !! "-K0" = Some node
    /\ PartialPost.views node = Some 0%Z
    /\ PartialPost.publisherName node = Some "Pub"
    /\ Firebase.posts
         (world_of (DataService.addPost Sample.form
                      (Sample.as_user Scenario.publisher) Sample.stocked_world))
       !! "p1" = Firebase.posts Sample.stocked_world !! "p1".
Proof.
  destruct (addPost_stamps Sample.form (Sample.as_user Scenario.publisher)
              Sample.stocked_world Scenario.publisher
              (Sample.as_user Scenario.publisher)
              (world_of (DataService.addPost Sample.form
                           (Sample.as_user Scenario.publisher)
                           Sample.stocked_world)))
    as (node & Hn & Hv & _ & _ & Hp & _ & _ & _ & _ & _ & _ & Hk & _);
    [reflexivity | reflexivity |].
  exists node. split; [exact Hn|]. split; [exact Hv|]. split; [exact Hp|].
  apply Hk. discriminate.
Defined.

(** X3: no mutation of the layer touches the signals; the local
    collections follow a write only through the next snapshot. *)
Theorem mutations_keep_signals s w name icon postData id patch email pass role :
  state_of (DataService.addCategory name icon s w) = s
  /\ state_of (DataService.addPost postData s w) = s
  /\ state_of (DataService.updatePost id patch s w) = s
  /\ state_of (DataService.deletePost id s w) = s
  /\ state_of (DataService.register name email pass role s w) = s.
Proof.
  unfold DataService.addCategory, DataService.addPost, DataService.updatePost,
    DataService.deletePost, DataService.register. run.
  unfold Firebase.createUserWithEmailAndPassword, Firebase.push.
  repeat split.
  - destruct (Firebase.commit _ _) as [[u|e] w1]; reflexivity.
  - destruct (DataService.currentUser s); [|reflexivity].
    destruct (DataService.canEdit s); [|reflexivity]. simpl.
    destruct (Firebase.commit _ _) as [[u|e] w1]; reflexivity.
  - destruct (DataService.currentUser s); [|reflexivity].
    destruct (DataService.canEdit s); [|reflexivity]. simpl.
    destruct (Firebase.commit _ _) as [[u|e] w1]; reflexivity.
  - destruct (Firebase.commit _ _) as [[u|e] w1]; reflexivity.
  - destruct (Firebase.issue w email pass); [|reflexivity].
    destruct (Firebase.commit _ _) as [[u|e] w1]; reflexivity.
Qed.

Lemma same_tree_refl w : same_tree w w.
Proof. repeat split. Qed.

Lemma same_tree_pushed n w : same_tree w (Firebase.with_pushed n w).
Proof. repeat split. Qed.

Lemma same_tree_session o w : same_tree w (Firebase.with_session o w).
Proof. repeat split. Qed.

(** X4: a rejected mutation has written nothing: after it the three
    subtrees are what they were before the call. *)
Theorem rejected_writes_nothing s w name icon postData id patch email pass role :
  (is_rejected (outcome (DataService.addCategory name icon s w)) = true ->
   same_tree w (world_of (DataService.addCategory name icon s w)))
  /\ (is_rejected (outcome (DataService.addPost postData s w)) = true ->
      same_tree w (world_of (DataService.addPost postData s w)))
  /\ (is_rejected (outcome (DataService.updatePost id patch s w)) = true ->
      same_tree w (world_of (DataService.updatePost id patch s w)))
  /\ (is_rejected (outcome (DataService.deletePost id s w)) = true ->
      same_tree w (world_of (DataService.deletePost id s w)))
  /\ (is_rejected (outcome (DataService.register name email pass role s w)) = true ->
      same_tree w (world_of (DataService.register name email pass role s w))).
Proof.
  unfold DataService.addCategory, DataService.addPost, DataService.updatePost,
    DataService.deletePost, DataService.register. run.
  unfold Firebase.createUserWithEmailAndPassword, Firebase.push.
  repeat apply conj.
  all: repeat match goal with
         | |- context [match DataService.currentUser ?s with _ => _ end] =>
             destruct (DataService.currentUser s)
         | |- context [if negb (DataService.canEdit ?s) then _ else _] =>
             destruct (DataService.canEdit s); simpl
         | |- context [Firebase.issue ?w ?e ?p] =>
             destruct (Firebase.issue w e p)
         end.
  all: try (destruct (Firebase.commit _ _) as [[u|e] w1] eqn:Hc;
            [|apply commit_rejected in Hc as [-> _]]).
  all: simpl; intros Hrej; first [discriminate Hrej | repeat split].
Qed.

Lemma rejected_writes_nothing_witness :
  is_rejected
    (outcome (DataService.addPost Sample.form (Sample.as_user Scenario.publisher)
                Scenario.read_only)) = true
  /\ same_tree Scenario.read_only
       (world_of (DataService.addPost Sample.form
                    (Sample.as_user Scenario.publisher) Scenario.read_only)).
Proof.
  split; [reflexivity|].
  apply (rejected_writes_nothing (Sample.as_user Scenario.publisher)
           Scenario.read_only "" "" Sample.form "" PartialPost.empty "" ""
           DataService.as_user).
  reflexivity.
Defined.

(** X5: register is not atomic.  When the credential is issued and the
    write of the profile is refused, the call is rejected with the
    backend's error while the new credential stays signed in and has no
    profile. *)
Theorem register_without_profile name email pass role s w uid code :
  Firebase.issue w email pass = inl uid ->
  (forall profile,
      Firebase.rules w (Some uid) (Firebase.SetUser uid profile) = Some code) ->
  let r := DataService.register name email pass role s w in
  outcome r = Rejected (FirebaseError code)
  /\ Firebase.session (world_of r) = Some uid
  /\ Firebase.users (world_of r) = Firebase.users w.
Proof.
  intros Hi Hr. unfold DataService.register. run.
  unfold Firebase.createUserWithEmailAndPassword. rewrite Hi.
  rewrite commit_refused with (code := code); [repeat split|].
  apply Hr.
Qed.

Lemma register_without_profile_witness :
  outcome (DataService.register "A" "moinulbd.sk@gmail.com" "pw"
             DataService.as_user Sample.signed_out Scenario.read_only)
  = Rejected (FirebaseError "PERMISSION_DENIED")
  /\ Firebase.session
       (world_of (DataService.register "A" "moinulbd.sk@gmail.com" "pw"
                    DataService.as_user Sample.signed_out Scenario.read_only))
     = Some "uid:moinulbd.sk@gmail.com"
  /\ Firebase.users
       (world_of (DataService.register "A" "moinulbd.sk@gmail.com" "pw"
                    DataService.as_user Sample.signed_out Scenario.read_only))
     = Firebase.users Scenario.read_only.
Proof.
  apply (register_without_profile "A" "moinulbd.sk@gmail.com" "pw"
           DataService.as_user Sample.signed_out Scenario.read_only
           "uid:moinulbd.sk@gmail.com" "PERMISSION_DENIED").
  - reflexivity.
  - intros profile. reflexivity.
Defined.

(** X6: for a session whose profile is missing, the callback publishes an
    identity with the uid of the credential, role 'user', an editable-flag
    that is true, the email of the credential or the empty string, and the
    display name of the credential, or 'User' when that name is null or
    empty, so that the name is never empty; it is neither admin nor
    publisher, and it can edit. *)
Theorem fallback_identity firebaseUser s :
  let s' := DataService.onProfileValue firebaseUser None s in
  exists u,
    DataService.currentUser s' = Some u
    /\ User.id u = Firebase.uid firebaseUser
    /\ User.role u = Role.user
    /\ User.canEdit u = Some true
    /\ User.name u
       = match Firebase.displayName firebaseUser with
         | Some n => if String.eqb n "" then "User" else n
         | None => "User"
         end
    /\ User.email u = default "" (Firebase.email firebaseUser)
    /\ User.name u <> ""
    /\ DataService.isAdmin s' = false
    /\ DataService.isPublisher s' = false
    /\ DataService.canEdit s' = true
    /\ DataService.posts s' = DataService.posts s.
Proof.
  simpl. eexists. split; [reflexivity|]. simpl.
  split; [reflexivity|]. split; [reflexivity|]. split; [reflexivity|].
  split; [reflexivity|]. split.
  { unfold JS.or_else. destruct (Firebase.email firebaseUser) as [e|]; simpl;
      [|reflexivity].
    destruct (String.eqb_spec e ""); congruence. }
  split; [|repeat split].
  unfold JS.or_else.
  destruct (Firebase.displayName firebaseUser) as [n|]; [|discriminate].
  destruct (String.eqb_spec n ""); [discriminate | assumption].
Qed.

(** * Snapshots *)

(** X7: after a snapshot of the listings the ids of the local listings
    are the keys of the snapshot, each once, whatever id a node stores; the
    other signals are as before, and nothing of the previous list is
    left. *)
Theorem onPostsValue_ids getTime entries s :
  let s' := DataService.onPostsValue getTime (Some entries) s in
  Permutation (map Post.id (DataService.posts s')) (map fst entries)
  /\ length (DataService.posts s') = length entries
  /\ DataService.categories s' = DataService.categories s
  /\ DataService.currentUser s' = DataService.currentUser s
  /\ DataService.allUsers s' = DataService.allUsers s
  /\ (forall old,
        DataService.posts
          (DataService.onPostsValue getTime (Some entries)
             (DataService.set_posts old s))
        = DataService.posts s').
Proof.
  simpl.
  assert (Hp := sort_perm (DataService.byDateDesc getTime)
                  (map (fun e => Post.with_id (fst e) (snd e)) entries)).
  split.
  - rewrite Hp, map_map. simpl. reflexivity.
  - split; [|repeat split].
    rewrite (Permutation_length Hp). apply length_map.
Qed.

Lemma find_category_with_id entries key cat :
  List.NoDup (map fst entries) ->
  In (key, cat) entries ->
  List.find (fun c => String.eqb (Category.id c) key)
    (map (fun e => DataServiceRest.category_with_id (fst e) (snd e)) entries)
  = Some (DataServiceRest.category_with_id key cat).
Proof.
  induction entries as [|[k c] entries IH]; intros Hnd Hin; [destruct Hin|].
  simpl in *. inversion Hnd as [|? ? Hk Hnd']; subst.
  destruct Hin as [[= -> ->]|Hin].
  - rewrite String.eqb_refl. reflexivity.
  - destruct (String.eqb_spec k key) as [->|_]; [|apply IH; assumption].
    exfalso. apply Hk. apply (in_map fst) in Hin. exact Hin.
Qed.

Lemma find_category_missing entries key :
  ~ In key (map fst entries) ->
  List.find (fun c => String.eqb (Category.id c) key)
    (map (fun e => DataServiceRest.category_with_id (fst e) (snd e)) entries)
  = None.
Proof.
  induction entries as [|[k c] entries IH]; intros Hk; [reflexivity|].
  simpl in *. destruct (String.eqb_spec k key) as [->|_].
  - exfalso. apply Hk. left. reflexivity.
  - apply IH. intros H. apply Hk. right. exact H.
Qed.

(** X8: once a snapshot of the categories is taken over, the name shown
    for a key of the snapshot is the name stored under that key. *)
Theorem getCategoryName_of_snapshot entries key cat c :
  List.NoDup (map fst entries) ->
  In (key, cat) entries ->
  Controller.getCategoryName key
    (Controller.set_dataService
       (DataServiceRest.onCategoriesValue (Some entries) (Controller.dataService c))
       c)
  = Category.name cat.
Proof.
  intros Hnd Hin. unfold Controller.getCategoryName. simpl.
  rewrite (find_category_with_id _ _ _ Hnd Hin). reflexivity.
Qed.

(** X9: a category reference that no category of the snapshot carries, or
    any reference after an empty snapshot, is shown as "Unknown". *)
Theorem getCategoryName_dangling data key c :
  match data with
  | Some entries => ~ In key (map fst entries)
  | None => True
  end ->
  Controller.getCategoryName key
    (Controller.set_dataService
       (DataServiceRest.onCategoriesValue data (Controller.dataService c)) c)
  = "Unknown".
Proof.
  intros Hk. unfold Controller.getCategoryName.
  destruct data as [entries|]; simpl; [|reflexivity].
  rewrite (find_category_missing _ _ Hk). reflexivity.
Qed.

Lemma insert_front {A} (comparefn : A -> A -> JS.number) x l :
  Forall (fun y => (JS.sortCompare comparefn x y <= 0)%Z) l ->
  JS.insert comparefn x l = x :: l.
Proof.
  destruct l as [|y l]; [reflexivity|]. simpl. intros H.
  inversion H as [|? ? Hy _]; subst.
  apply Z.leb_le in Hy. rewrite Hy. reflexivity.
Qed.

Lemma at_least_as_new_compare getTime x y :
  Spec.at_least_as_new getTime x y ->
  (JS.sortCompare (DataService.byDateDesc getTime) x y <= 0)%Z.
Proof.
  intros (tx & ty & Hx & Hy & Hle).
  unfold JS.sortCompare, DataService.byDateDesc. rewrite Hx, Hy. simpl. lia.
Qed.

Lemma sort_newest_first getTime l :
  StronglySorted (Spec.at_least_as_new getTime) l ->
  JS.sort (DataService.byDateDesc getTime) l = l.
Proof.
  induction 1 as [|x l Hl IH Hx]; [reflexivity|].
  simpl. rewrite IH. apply insert_front.
  eapply List.Forall_impl; [|exact Hx].
  intros y. apply at_least_as_new_compare.
Qed.

(** X10: a snapshot whose listings already come newest first, ties
    included, is taken over in its own order. *)
Theorem onPostsValue_keeps_order getTime data s :
  StronglySorted (Spec.at_least_as_new getTime) (Spec.listings_of data) ->
  DataService.posts (DataService.onPostsValue getTime data s)
  = Spec.listings_of data.
Proof.
  destruct data as [entries|]; simpl; [|reflexivity].
  apply sort_newest_first.
Qed.

Lemma getCategoryName_of_snapshot_witness :
  Controller.getCategoryName "c1"
    (Controller.set_dataService
       (DataServiceRest.onCategoriesValue (Some Scenario.categories)
          Sample.signed_out)
       (Scenario.blank_forms Sample.signed_out))
  = "Messaging".
Proof.
  apply (getCategoryName_of_snapshot Scenario.categories "c1"
           (Category.mk "stale" "Messaging" "#" "messaging")
           (Scenario.blank_forms Sample.signed_out)).
  - repeat constructor; simpl; intuition discriminate.
  - right. left. reflexivity.
Defined.

Lemma getCategoryName_dangling_witness :
  Controller.getCategoryName "stale"
    (Controller.set_dataService
       (DataServiceRest.onCategoriesValue (Some Scenario.categories)
          Sample.signed_out)
       (Scenario.blank_forms Sample.signed_out))
  = "Unknown".
Proof.
  apply (getCategoryName_dangling (Some Scenario.categories) "stale"
           (Scenario.blank_forms Sample.signed_out)).
  simpl. intuition discriminate.
Defined.

Lemma onPostsValue_keeps_order_witness :
  map Post.id
    (DataService.posts
       (DataService.onPostsValue Sample.getTime Scenario.newest_first
          Sample.signed_out))
  = ["p2"; "p1"; "p3"].
Proof.
  rewrite (onPostsValue_keeps_order Sample.getTime Scenario.newest_first
             Sample.signed_out).
  - reflexivity.
  - repeat constructor; eexists _, _; repeat split; simpl; lia.
Defined.

(** * Seeding *)

Lemma never_denied_ret {A} (a : A) : never_denied (DataService.ret a).
Proof. intros s w. reflexivity. Qed.

Lemma never_denied_signals : never_denied DataService.signals.
Proof. intros s w. reflexivity. Qed.

Lemma never_denied_sync {A} (call : Firebase.World -> A * Firebase.World) :
  never_denied (DataService.sync call).
Proof. intros s w. unfold DataService.sync. destruct (call w). reflexivity. Qed.

Lemma never_denied_commit wr : never_denied (DataService.await (Firebase.commit wr)).
Proof.
  intros s w. unfold DataService.await, Firebase.commit.
  destruct (Firebase.rules w (Firebase.session w) wr); reflexivity.
Qed.

Lemma never_denied_bind {A B} (m : DataService.Async A) (k : A -> DataService.Async B) :
  never_denied m -> (forall a, never_denied (k a)) ->
  never_denied (DataService.bind m k).
Proof.
  intros Hm Hk s w. unfold DataService.bind.
  specialize (Hm s w). destruct (m s w) as [[[a|e] s1] w1].
  - apply Hk.
  - exact Hm.
Qed.

Lemma never_denied_for_each {A} (body : A -> DataService.Async unit) l :
  (forall d, never_denied (body d)) ->
  never_denied (DataServiceRest.for_each body l).
Proof.
  intros Hb. induction l as [|d l IH]; simpl.
  - apply never_denied_ret.
  - apply never_denied_bind; [apply Hb | intros _; exact IH].
Qed.

Create HintDb denied.

#[local] Hint Resolve never_denied_ret never_denied_signals never_denied_sync
  never_denied_commit : denied.

Lemma never_denied_addCategory name icon :
  never_denied (DataService.addCategory name icon).
Proof.
  unfold DataService.addCategory.
  repeat (apply never_denied_bind; [auto with denied | intros ?]).
  auto with denied.
Qed.

(** X11: seed-defaults checks no permission: whoever is signed in, and
    whatever can-edit says, it never fails with PermissionDenied. *)
Theorem seedDefaults_never_denied socialIcon msgIcon :
  never_denied (DataServiceRest.seedDefaults socialIcon msgIcon).
Proof.
  unfold DataServiceRest.seedDefaults.
  apply never_denied_bind; [apply never_denied_addCategory | intros socialCatId].
  apply never_denied_bind; [apply never_denied_addCategory | intros msgCatId].
  apply never_denied_bind; [auto with denied | intros s].
  apply never_denied_for_each. intros d. unfold DataServiceRest.seedPost.
  repeat (apply never_denied_bind; [auto with denied | intros ?]).
  auto with denied.
Qed.

(** X12: on a backend that accepts every write and hands out six distinct
    keys, seed-defaults is fulfilled for every identity state: the two
    categories stand under the first two keys with the slugs
    "social-media" and "messaging", the four listings under the next four,
    each referring to one of the two new categories and attributed to the
    current identity, or to 'system' / 'System Admin' when nobody is signed
    in. *)
Theorem seedDefaults_writes socialIcon msgIcon s w :
  (forall o wr, Firebase.rules w o wr = None) ->
  List.NoDup (map (fun i => Firebase.newKey w (i + Firebase.pushed w)) (seq 0 6)) ->
  let r := DataServiceRest.seedDefaults socialIcon msgIcon s w in
  let key i := Firebase.newKey w (i + Firebase.pushed w) in
  let adminId :=
    match DataService.currentUser s with Some u => User.id u | None => "system" end in
  let adminName :=
    match DataService.currentUser s with
    | Some u => User.name u
    | None => "System Admin"
    end in
  outcome r = Fulfilled tt
  /\ Firebase.categories (world_of r) !! key 0
     = Some (CategoryData.mk "Social Media" socialIcon "social-media")
  /\ Firebase.categories (world_of r) !! key 1
     = Some (CategoryData.mk "Messaging" msgIcon "messaging")
  /\ (forall i d,
        nth_error (DataServiceRest.defaults (key 0) (key 1)) i = Some d ->
        Firebase.posts (world_of r) !! key (2 + i)
        = Some (PartialPost.stamped d 0 (Firebase.now w) adminId adminName))
  /\ Firebase.pushed (world_of r) = 6 + Firebase.pushed w.
Proof.
  intros Hacc Hnd.
  unfold DataServiceRest.seedDefaults, DataServiceRest.seedPost,
    DataServiceRest.defaults, DataService.addCategory. simpl. run.
  unfold Firebase.push, Firebase.commit. simpl.
  repeat (rewrite Hacc; simpl).
  simpl in Hnd.
  repeat match type of Hnd with
         | List.NoDup (_ :: _) =>
             let Hx := fresh "Hx" in
             apply List.NoDup_cons_iff in Hnd as [Hx Hnd]; simpl in Hx
         end.
  split; [reflexivity|]. split.
  { rewrite lookup_insert_ne by intuition congruence. apply lookup_insert_eq. }
  split; [apply lookup_insert_eq|]. split; [|reflexivity].
  intros i d Hd.
  destruct i as [|[|[|[|i]]]]; simpl in Hd; try (destruct i; discriminate Hd);
    injection Hd as <-; simpl.
  - rewrite !lookup_insert_ne by intuition congruence. apply lookup_insert_eq.
  - rewrite !lookup_insert_ne by intuition congruence. apply lookup_insert_eq.
  - rewrite !lookup_insert_ne by intuition congruence. apply lookup_insert_eq.
  - apply lookup_insert_eq.
Qed.

Lemma seedDefaults_writes_witness :
  outcome (DataServiceRest.seedDefaults "(globe)" "(speech)" Sample.signed_out
             Sample.open_world) = Fulfilled tt
  /\ PartialPost.publisherId
     <$> Firebase.posts
           (world_of (DataServiceRest.seedDefaults "(globe)" "(speech)"
                        Sample.signed_out Sample.open_world))
         !! Firebase.newKey Sample.open_world 3
     = Some (Some "system")
  /\ PartialPost.categoryId
     <$> Firebase.posts
           (world_of (DataServiceRest.seedDefaults "(globe)" "(speech)"
                        Sample.signed_out Sample.open_world))
         !! Firebase.newKey Sample.open_world 3
     = Some (Some (Firebase.newKey Sample.open_world 1)).
Proof.
  destruct (seedDefaults_writes "(globe)" "(speech)" Sample.signed_out
              Sample.open_world) as (Hok & _ & _ & Hposts & _).
  - intros o wr. reflexivity.
  - repeat constructor; simpl; intuition discriminate.
  - split; [exact Hok|].
    change (Firebase.newKey Sample.open_world 3)
      with (Firebase.newKey Sample.open_world
              (2 + 1 + Firebase.pushed Sample.open_world)).
    rewrite (Hposts 1 _ eq_refl). split; reflexivity.
Defined.

(** X13: seed-defaults does not roll back.  When the backend accepts the
    categories and refuses the listings, the call is rejected at the first
    listing with the backend's error, both categories stay written and no
    listing is. *)
Theorem seedDefaults_no_rollback socialIcon msgIcon s w code :
  (forall o k c, Firebase.rules w o (Firebase.SetCategory k c) = None) ->
  (forall o k p, Firebase.rules w o (Firebase.SetPost k p) = Some code) ->
  let r := DataServiceRest.seedDefaults socialIcon msgIcon s w in
  outcome r = Rejected (FirebaseError code)
  /\ Firebase.categories (world_of r)
     = <[Firebase.newKey w (1 + Firebase.pushed w) :=
           CategoryData.mk "Messaging" msgIcon "messaging"]>
         (<[Firebase.newKey w (Firebase.pushed w) :=
              CategoryData.mk "Social Media" socialIcon "social-media"]>
            (Firebase.categories w))
  /\ Firebase.posts (world_of r) = Firebase.posts w
  /\ Firebase.pushed (world_of r) = 3 + Firebase.pushed w.
Proof.
  intros Hcat Hpost.
  unfold DataServiceRest.seedDefaults, DataServiceRest.seedPost,
    DataServiceRest.defaults, DataService.addCategory. simpl. run.
  unfold Firebase.push, Firebase.commit. simpl.
  repeat (rewrite Hcat; simpl). rewrite Hpost. simpl.
  repeat split.
Qed.

Lemma seedDefaults_no_rollback_witness :
  outcome (DataServiceRest.seedDefaults "(globe)" "(speech)"
             (Sample.as_user Sample.root) Scenario.no_listings)
  = Rejected (FirebaseError "PERMISSION_DENIED")
  /\ size (Firebase.categories
             (world_of (DataServiceRest.seedDefaults "(globe)" "(speech)"
                          (Sample.as_user Sample.root) Scenario.no_listings)))
     = 2
  /\ Firebase.posts
       (world_of (DataServiceRest.seedDefaults "(globe)" "(speech)"
                    (Sample.as_user Sample.root) Scenario.no_listings))
     = Firebase.posts Scenario.no_listings.
Proof.
  destruct (seedDefaults_no_rollback "(globe)" "(speech)"
              (Sample.as_user Sample.root) Scenario.no_listings
              "PERMISSION_DENIED") as (Hout & Hcat & Hposts & _).
  - intros o k c. reflexivity.
  - intros o k p. reflexivity.
  - split; [exact Hout|]. split; [|exact Hposts].
    rewrite Hcat. vm_compute. reflexivity.
Defined.

(** * The view controller *)

Lemma canEdit_signed_in s :
  DataService.canEdit s = true -> exists user, DataService.currentUser s = Some user.
Proof.
  unfold DataService.canEdit.
  destruct (DataService.currentUser s) as [user|]; [eauto | discriminate].
Qed.

(** X14: what edit-listing leaves behind depends on the role.  For an
    identity of role 'user' the form holds the listing and the edit target
    is its id.  For an admin or a publisher the switch to the dashboard
    resets the form: the edit target is absent and the form is empty. *)
Theorem editPost_by_role post c b user :
  DataService.canEdit (Controller.dataService c) = true ->
  DataService.currentUser (Controller.dataService c) = Some user ->
  let r := Controller.editPost post c b in
  match User.role user with
  | Role.user =>
      Controller.editingPostId (fst r) = Some (Post.id post)
      /\ Controller.postForm (fst r)
         = PostFields.mk (Post.title post) (Post.description post)
             (Post.url post) (Post.imageUrl post) (Post.categoryId post)
      /\ Controller.currentView (fst r) = Controller.currentView c
      /\ snd r = b
  | role =>
      Controller.editingPostId (fst r) = None
      /\ Controller.postForm (fst r) = PostFields.mk "" "" "" "" ""
      /\ Controller.currentView (fst r)
         = match role with
           | Role.admin => ViewState.admin_dashboard
           | _ => ViewState.publisher_dashboard
           end
      /\ Controller.selectedPost (fst r) = None
      /\ Browser.scroll (snd r) = (0, 0)%Z
      /\ Browser.timers (snd r)
         = (Browser.timers b ++ [(100%Z, Browser.ScrollToTop)])%list
  end.
Proof.
  intros Hc Hu. unfold Controller.editPost. rewrite Hc. simpl. rewrite Hu.
  destruct (User.role user); simpl; repeat split.
Qed.

Lemma editPost_by_role_witness :
  DataService.canEdit (Sample.as_user Scenario.publisher) = true
  /\ Controller.editingPostId
       (fst (Controller.editPost Sample.whatsapp
               (Scenario.blank_forms (Sample.as_user Scenario.publisher))
               Scenario.quiet)) = None
  /\ Controller.editingPostId
       (fst (Controller.editPost Sample.whatsapp
               (Scenario.blank_forms (Sample.as_user Sample.reader))
               Scenario.quiet)) = Some "p1".
Proof.
  split; [reflexivity|]. split.
  - apply (editPost_by_role Sample.whatsapp
             (Scenario.blank_forms (Sample.as_user Scenario.publisher))
             Scenario.quiet Scenario.publisher); reflexivity.
  - apply (editPost_by_role Sample.whatsapp
             (Scenario.blank_forms (Sample.as_user Sample.reader))
             Scenario.quiet Sample.reader); reflexivity.
Defined.

Lemma editPost_no_target post c b user :
  DataService.canEdit (Controller.dataService c) = true ->
  DataService.currentUser (Controller.dataService c) = Some user ->
  User.role user <> Role.user ->
  Controller.editingPostId (fst (Controller.editPost post c b)) = None.
Proof.
  intros Hc Hu Hr. unfold Controller.editPost. rewrite Hc. simpl. rewrite Hu.
  destruct (User.role user); [reflexivity | reflexivity | congruence].
Qed.

(** Outside the edit mode save-listing reaches the tree at the generated
    key only. *)
Lemma savePost_creates random c b w k :
  match Controller.editingPostId c with
  | Some id => id = ""
  | None => True
  end ->
  k <> Firebase.newKey w (Firebase.pushed w) ->
  Firebase.posts (snd (Controller.savePost random c b w)) !! k
  = Firebase.posts w !! k.
Proof.
  intros He Hk. unfold Controller.savePost.
  destruct (negb _); [reflexivity|].
  destruct (_ || _); [reflexivity|].
  assert (Hed : match Controller.editingPostId c with
                | Some id => if Controller.blank id then None else Some id
                | None => None
                end = None).
  { destruct (Controller.editingPostId c) as [id|]; [|reflexivity].
    subst id. reflexivity. }
  rewrite Hed. unfold DataService.addPost. run.
  destruct (DataService.currentUser _); [|reflexivity].
  destruct (negb _); [reflexivity|]. simpl.
  unfold Firebase.commit.
  destruct (Firebase.rules _ _ _); simpl; [reflexivity|].
  apply lookup_insert_ne. congruence.
Qed.

(** X15: after edit-listing by an admin or a publisher, whatever is then
    typed into the form, save-listing does not update the listing that was
    to be edited: it can only write under the key generated for a new
    listing. *)
Theorem savePost_after_editPost post c b user form random w k :
  DataService.canEdit (Controller.dataService c) = true ->
  DataService.currentUser (Controller.dataService c) = Some user ->
  User.role user <> Role.user ->
  k <> Firebase.newKey w (Firebase.pushed w) ->
  let edited := Controller.editPost post c b in
  Firebase.posts
    (snd (Controller.savePost random (Controller.set_postForm form (fst edited))
            (snd edited) w)) !! k
  = Firebase.posts w !! k.
Proof.
  intros Hc Hu Hr Hk edited. apply savePost_creates; [|exact Hk].
  simpl. unfold edited. rewrite (editPost_no_target post c b user Hc Hu Hr).
  exact I.
Qed.

Lemma savePost_after_editPost_witness :
  Firebase.posts
    (snd (Controller.savePost "0.5"
            (Controller.set_postForm Sample.form
               (fst (Controller.editPost Sample.whatsapp
                       (Scenario.blank_forms (Sample.as_user Scenario.publisher))
                       Scenario.quiet)))
            (snd (Controller.editPost Sample.whatsapp
                    (Scenario.blank_forms (Sample.as_user Scenario.publisher))
                    Scenario.quiet))
            Sample.stocked_world)) !! "p1"
  = Firebase.posts Sample.stocked_world !! "p1"
  /\ is_Some
       (Firebase.posts
          (snd (Controller.savePost "0.5"
                  (Controller.set_postForm Sample.form
                     (fst (Controller.editPost Sample.whatsapp
                             (Scenario.blank_forms
                                (Sample.as_user Scenario.publisher))
                             Scenario.quiet)))
                  (snd (Controller.editPost Sample.whatsapp
                          (Scenario.blank_forms
                             (Sample.as_user Scenario.publisher))
                          Scenario.quiet))
                  Sample.stocked_world)) !! "-K0").
Proof.
  split.
  - apply (savePost_after_editPost Sample.whatsapp
             (Scenario.blank_forms (Sample.as_user Scenario.publisher))
             Scenario.quiet Scenario.publisher Sample.form "0.5"
             Sample.stocked_world "p1"); try reflexivity; discriminate.
  - eexists. reflexivity.
Defined.

(** X16: save-listing stops at its guards: when can-edit is false, or the
    title, the address or the category of the form is empty, it shows one
    message and leaves the component and the backend as they were. *)
Theorem savePost_guards random c b w :
  negb (DataService.canEdit (Controller.dataService c))
  || Controller.blank (PostFields.title (Controller.postForm c))
  || Controller.blank (PostFields.url (Controller.postForm c))
  || Controller.blank (PostFields.categoryId (Controller.postForm c)) = true ->
  let r := Controller.savePost random c b w in
  fst (fst r) = c
  /\ snd r = w
  /\ exists text, Browser.alerts (snd (fst r)) = (Browser.alerts b ++ [Browser.Say text])%list.
Proof.
  unfold Controller.savePost.
  destruct (negb _); simpl; [intros _; eauto|].
  intros ->. simpl. eauto.
Qed.

Lemma savePost_guards_witness :
  fst (fst (Controller.savePost "0.5"
              (Scenario.blank_forms (Sample.as_user Scenario.publisher))
              Scenario.quiet Sample.open_world))
  = Scenario.blank_forms (Sample.as_user Scenario.publisher)
  /\ snd (Controller.savePost "0.5"
            (Scenario.blank_forms (Sample.as_user Scenario.publisher))
            Scenario.quiet Sample.open_world)
     = Sample.open_world
  /\ exists text,
      Browser.alerts
        (snd (fst (Controller.savePost "0.5"
                     (Scenario.blank_forms (Sample.as_user Scenario.publisher))
                     Scenario.quiet Sample.open_world)))
      = (Browser.alerts Scenario.quiet ++ [Browser.Say text])%list.
Proof.
  apply (savePost_guards "0.5"
           (Scenario.blank_forms (Sample.as_user Scenario.publisher))
           Scenario.quiet Sample.open_world).
  reflexivity.
Defined.

(** X17: in the edit mode a saved form replaces the title, the
    description, the address, the image and the category of the listing and
    nothing else: its author, date, view counter and stored id stay, no key
    is generated and no other listing changes.  An empty image field
    becomes the placeholder address.  Afterwards the form is empty and the
    edit mode is left. *)
Theorem savePost_update random c b w id node :
  DataService.canEdit (Controller.dataService c) = true ->
  Controller.editingPostId c = Some id ->
  id <> "" ->
  Controller.blank (PostFields.title (Controller.postForm c))
  || Controller.blank (PostFields.url (Controller.postForm c))
  || Controller.blank (PostFields.categoryId (Controller.postForm c)) = false ->
  Firebase.posts w !! id = Some node ->
  (forall p, Firebase.rules w (Firebase.session w) (Firebase.UpdatePost id p) = None) ->
  let r := Controller.savePost random c b w in
  let form := Controller.postForm c in
  exists node',
    Firebase.posts (snd r) !! id = Some node'
    /\ PartialPost.title node' = Some (PostFields.title form)
    /\ PartialPost.description node' = Some (PostFields.description form)
    /\ PartialPost.url node' = Some (PostFields.url form)
    /\ PartialPost.categoryId node' = Some (PostFields.categoryId form)
    /\ PartialPost.imageUrl node'
       = Some (if Controller.blank (PostFields.imageUrl form)
               then "https://picsum.photos/400/200?random=" +:+ random
               else PostFields.imageUrl form)
    /\ PartialPost.publisherId node' = PartialPost.publisherId node
    /\ PartialPost.publisherName node' = PartialPost.publisherName node
    /\ PartialPost.date node' = PartialPost.date node
    /\ PartialPost.views node' = PartialPost.views node
    /\ PartialPost.id node' = PartialPost.id node
    /\ (forall k, k <> id -> Firebase.posts (snd r) !! k = Firebase.posts w !! k)
    /\ Firebase.pushed (snd r) = Firebase.pushed w
    /\ Controller.editingPostId (fst (fst r)) = None
    /\ Controller.postForm (fst (fst r)) = PostFields.mk "" "" "" "" ""
    /\ Browser.alerts (snd (fst r))
       = (Browser.alerts b ++ [Browser.Say "Post updated successfully!"])%list.
Proof.
  intros Hc He Hid Hreq Hnode Hacc.
  destruct (canEdit_signed_in _ Hc) as [user Hu].
  unfold Controller.savePost. rewrite Hc, Hreq, He. simpl.
  assert (Hb : Controller.blank id = false).
  { unfold Controller.blank. destruct (String.eqb_spec id ""); congruence. }
  rewrite Hb. unfold DataService.updatePost. run. rewrite Hu, Hc. simpl.
  rewrite commit_accepted by apply Hacc. simpl.
  eexists. split; [apply lookup_insert_eq|]. rewrite Hnode. simpl.
  repeat (split; [reflexivity|]).
  split; [|repeat split].
  intros k Hk. apply lookup_insert_ne. congruence.
Qed.

Lemma savePost_update_witness :
  exists node',
    Firebase.posts
      (snd (Controller.savePost "0.5" Scenario.editing Scenario.quiet
              Sample.stocked_world)) !! "p1" = Some node'
    /\ PartialPost.title node' = Some "WhatsApp"
    /\ PartialPost.imageUrl node'
       = Some "https://picsum.photos/400/200?random=0.5"
    /\ PartialPost.publisherName node' = Some "Pub"
    /\ PartialPost.views node' = Some 0%Z.
Proof.
  destruct (savePost_update "0.5" Scenario.editing Scenario.quiet
              Sample.stocked_world "p1"
              (PartialPost.mk None (Some "WhatsApp Web") None
                 (Some "https://web.whatsapp.com") None (Some "c1") (Some "u2")
                 (Some "Pub") (Some "2024-05-01T10:00:00.000Z") (Some 0%Z)))
    as (node' & Hn & Ht & _ & _ & _ & Hi & _ & Hp & _ & Hv & _);
    try reflexivity; [discriminate|].
  exists node'. repeat split; assumption.
Defined.

(** X18: when the backend refuses the write, save-listing keeps the form
    and the edit target, shows the error, and the tree is as before. *)
Theorem savePost_rejected random c b w code :
  DataService.canEdit (Controller.dataService c) = true ->
  Controller.blank (PostFields.title (Controller.postForm c))
  || Controller.blank (PostFields.url (Controller.postForm c))
  || Controller.blank (PostFields.categoryId (Controller.postForm c)) = false ->
  (forall o wr, Firebase.rules w o wr = Some code) ->
  let r := Controller.savePost random c b w in
  Controller.postForm (fst (fst r)) = Controller.postForm c
  /\ Controller.editingPostId (fst (fst r)) = Controller.editingPostId c
  /\ Browser.alerts (snd (fst r))
     = (Browser.alerts b
        ++ [Browser.SayError "Error saving post: " (FirebaseError code)])%list
  /\ same_tree w (snd r).
Proof.
  intros Hc Hreq Hrej.
  destruct (canEdit_signed_in _ Hc) as [user Hu].
  unfold Controller.savePost. rewrite Hc, Hreq. simpl.
  destruct (match Controller.editingPostId c with
            | Some id => if Controller.blank id then None else Some id
            | None => None
            end) as [id|];
    unfold DataService.updatePost, DataService.addPost; run;
    rewrite Hu, Hc; simpl; unfold Firebase.commit; simpl; rewrite Hrej; simpl;
    repeat split.
Qed.

Lemma savePost_rejected_witness :
  Controller.postForm
    (fst (fst (Controller.savePost "0.5" Scenario.editing Scenario.quiet
                 Scenario.read_only)))
  = Controller.postForm Scenario.editing
  /\ Controller.editingPostId
       (fst (fst (Controller.savePost "0.5" Scenario.editing Scenario.quiet
                    Scenario.read_only)))
     = Some "p1"
  /\ Browser.alerts
       (snd (fst (Controller.savePost "0.5" Scenario.editing Scenario.quiet
                    Scenario.read_only)))
     = (Browser.alerts Scenario.quiet
        ++ [Browser.SayError "Error saving post: "
              (FirebaseError "PERMISSION_DENIED")])%list
  /\ same_tree Scenario.read_only
       (snd (Controller.savePost "0.5" Scenario.editing Scenario.quiet
               Scenario.read_only)).
Proof.
  apply (savePost_rejected "0.5" Scenario.editing Scenario.quiet
           Scenario.read_only "PERMISSION_DENIED"); reflexivity.
Defined.

(** X19: create-category does nothing for an empty name.  Otherwise it
    empties the form whatever the backend answers; an accepted write stands
    under the generated key with the icon of the form, or "#" for an empty
    one, and a refused write leaves the tree as it was. *)
Theorem createCategory_outcome c w :
  let r := Controller.createCategory c w in
  let name := Controller.category_name (Controller.categoryForm c) in
  let icon :=
    if Controller.blank (Controller.category_icon (Controller.categoryForm c))
    then "#" else Controller.category_icon (Controller.categoryForm c) in
  let key := Firebase.newKey w (Firebase.pushed w) in
  if Controller.blank name then r = (c, w)
  else
    Controller.categoryForm (fst r) = Controller.mkCategory "" ""
    /\ Controller.dataService (fst r) = Controller.dataService c
    /\ match Firebase.rules w (Firebase.session w)
               (Firebase.SetCategory key
                  (CategoryData.mk name icon (Spec.slug_of_runs name))) with
       | None =>
           Firebase.categories (snd r) !! key
           = Some (CategoryData.mk name icon (Spec.slug_of_runs name))
       | Some _ => same_tree w (snd r)
       end.
Proof.
  unfold Controller.createCategory.
  destruct (Controller.blank _) eqn:Hb; [reflexivity|].
  unfold DataService.addCategory. run. unfold Firebase.push, Firebase.commit.
  simpl. unfold JS.replace_whitespace. rewrite replace_runs_squeeze.
  fold (Spec.slug_of_runs
          (Controller.category_name (Controller.categoryForm c))).
  destruct (Firebase.rules _ _ _); simpl; repeat split.
  apply lookup_insert_eq.
Qed.

(** X20: my-listings is the filter of the listings by a test that holds
    exactly for the listings whose author reference is the id of the
    current identity; with nobody signed in no listing passes. *)
Theorem myPosts_exact c :
  exists keeps : Post.t -> bool,
    (forall post,
        keeps post = true
        <-> exists user,
            DataService.currentUser (Controller.dataService c) = Some user
            /\ Post.publisherId post = User.id user)
    /\ Controller.myPosts c
       = List.filter keeps (DataService.posts (Controller.dataService c)).
Proof.
  unfold Controller.myPosts.
  destruct (DataService.currentUser (Controller.dataService c)) as [user|].
  - eexists. split; [|reflexivity]. intros post. cbv beta.
    rewrite String.eqb_eq. split.
    + intros H. exists user. auto.
    + intros (u & [= <-] & H). exact H.
  - exists (fun _ => false). split.
    + intros post. split; [discriminate | intros (u & Hu & _); discriminate].
    + induction (DataService.posts (Controller.dataService c)); auto.
Qed.

Lemma set_dataService_same c :
  Controller.set_dataService (Controller.dataService c) c = c.
Proof. destruct c; reflexivity. Qed.

(** X21: the controller's sign-out, once sign-out of the backend is
    fulfilled, shows the home view with no listing open, the form empty and
    no edit target; my-listings is empty and filtered-listings is what it
    was.  When the backend fails, the error is passed on and nothing
    changes. *)
Theorem logout_to_home c b w :
  let r := Controller.logout c b w in
  let c' := snd (fst (fst r)) in
  match Firebase.signOutError w with
  | None =>
      fst (fst (fst r)) = Fulfilled tt
      /\ Controller.currentView c' = ViewState.home
      /\ Controller.selectedPost c' = None
      /\ Controller.editingPostId c' = None
      /\ Controller.postForm c' = PostFields.mk "" "" "" "" ""
      /\ DataService.currentUser (Controller.dataService c') = None
      /\ Controller.myPosts c' = []
      /\ AppComponent.filteredPosts (Controller.component c')
         = AppComponent.filteredPosts (Controller.component c)
      /\ Firebase.session (snd r) = None
  | Some code => r = (Rejected (FirebaseError code), c, b, w)
  end.
Proof.
  unfold Controller.logout, DataService.logout. run. unfold Firebase.signOut.
  destruct (Firebase.signOutError w); simpl.
  - rewrite set_dataService_same. reflexivity.
  - repeat split.
Qed.

(** X22: a change of view closes the open listing and leaves the scroll
    lock of the page on; only close-listing takes it off. *)
Theorem setView_keeps_scroll_lock post view c b :
  let opened := Controller.openPost post c b in
  let moved := Controller.setView view (fst opened) (snd opened) in
  let closed := Controller.closePost (fst opened) (snd opened) in
  Controller.selectedPost (fst opened) = Some post
  /\ Controller.selectedPost (fst moved) = None
  /\ Browser.overflow (snd moved) = "hidden"
  /\ Controller.selectedPost (fst closed) = None
  /\ Browser.overflow (snd closed) = "".
Proof. repeat split. Qed.

Lemma filter_map_fst {A B} (f : B -> bool) (g : string -> A -> B)
    (entries : list (string * A)) :
  List.filter f (map (fun e => g (fst e) (snd e)) entries)
  = map (fun e => g (fst e) (snd e))
      (List.filter (fun e => f (g (fst e) (snd e))) entries).
Proof.
  induction entries as [|e entries IH]; [reflexivity|].
  simpl. destruct (f (g (fst e) (snd e))); simpl; rewrite IH; reflexivity.
Qed.

(** X23: once a snapshot of the users is taken over, the publishers list
    holds, in the order of the snapshot and under their keys as ids, the
    identities of role 'publisher' and no other. *)
Theorem publishersList_of_snapshot entries c :
  let c' :=
    Controller.set_dataService
      (DataServiceRest.onUsersValue (Some entries) (Controller.dataService c)) c in
  map User.id (Controller.publishersList c')
  = map fst
      (List.filter (fun e => Role.eqb (User.role (snd e)) Role.publisher) entries)
  /\ Forall (fun u => User.role u = Role.publisher) (Controller.publishersList c').
Proof.
  unfold Controller.publishersList. simpl. split.
  - rewrite (filter_map_fst _ DataServiceRest.user_with_id), map_map.
    reflexivity.
  - apply List.Forall_forall. intros u Hu.
    apply List.filter_In in Hu as [_ Hu].
    destruct (User.role u); [discriminate | reflexivity | discriminate].
Qed.

(** X24: the session notification without a session clears the identity,
    and after a fulfilled sign-out it finds nothing left to change. *)
Theorem onAuthStateChanged_after_logout s w s' w' :
  DataService.logout s w = (Fulfilled tt, s', w') ->
  DataServiceRest.onAuthStateChanged None s' = s'
  /\ DataServiceRest.onAuthStateChanged None s = s'
  /\ Firebase.session w' = None.
Proof.
  unfold DataService.logout. run. unfold Firebase.signOut.
  destruct (Firebase.signOutError w); [discriminate|].
  intros [= <- <-]. repeat split.
Qed.

Lemma onAuthStateChanged_after_logout_witness :
  DataServiceRest.onAuthStateChanged None Sample.signed_out = Sample.signed_out
  /\ DataServiceRest.onAuthStateChanged None (Sample.as_user Sample.root)
     = Sample.signed_out
  /\ Firebase.session Sample.open_world = None.
Proof.
  apply (onAuthStateChanged_after_logout (Sample.as_user Sample.root)
           Sample.open_world Sample.signed_out Sample.open_world).
  reflexivity.
Defined.

(** The publishers of [Scenario.users]. *)
Example publishersList_sample :
  map User.id
    (Controller.publishersList
       (Controller.set_dataService
          (DataServiceRest.onUsersValue (Some Scenario.users) Sample.signed_out)
          (Scenario.blank_forms Sample.signed_out)))
  = ["u2"].
Proof. reflexivity. Qed.
